(** * The bundle adapter of the EFF dashboard

    A shallow embedding of [eff/adapters_v1.py] and of the two helpers
    [is_v1] and [to_v1] of [app/streamlit_app.py], with the properties of
    the adapter that its specification states.

    Conventions of the embedding.

    - A Python [str] is a [string]: one [ascii] per code point, for the
      code points below 256.  The character classes of [str.strip],
      [str.lower] and of the [re] module are written out for that range.
    - A JSON document, as [json.loads] delivers it, is a [value]; a [dict]
      is an association list in insertion order.
    - An exception is a result: [Raise e] in the monad [result].
    - Python's [float] is an interface ([PyFloat]): the adapter only
      stores floats, tests them for zero, parses them with [float()] and
      prints them with [str()]. *)

From Stdlib Require Import Strings.String Strings.Ascii Lists.List ZArith.ZArith.
From Stdlib Require Import Arith.PeanoNat Bool.Bool micromega.Lia.
From Stdlib Require Import Numbers.DecimalString.
Import ListNotations.

#[local] Set Warnings "-register-all".


Local Open Scope list_scope.
Local Open Scope string_scope.

(* ================================================================== *)
(** ** Text *)

Module Text.

Definition code (c : ascii) : nat := nat_of_ascii c.

Definition between (lo hi : nat) (c : ascii) : bool :=
  (lo <=? code c)%nat && (code c <=? hi)%nat.

Definition is_char (a c : ascii) : bool := Ascii.eqb a c.

(** [str.isspace], which is also the class [\s] of a [str] pattern. *)
Definition isspace (c : ascii) : bool :=
  between 9 13 c || between 28 32 c
  || (code c =? 133)%nat || (code c =? 160)%nat.

(** The class [\d]. *)
Definition isdigit (c : ascii) : bool := between 48 57 c.

(** The class [\w]: alphanumeric characters and the underscore. *)
Definition isword (c : ascii) : bool :=
  isdigit c || between 65 90 c || between 97 122 c || (code c =? 95)%nat
  || (code c =? 170)%nat || between 178 179 c || (code c =? 181)%nat
  || between 185 186 c || between 188 190 c
  || between 192 214 c || between 216 246 c || between 248 255 c.

(** [str.lower] on one character. *)
Definition lower_char (c : ascii) : ascii :=
  if between 65 90 c || between 192 214 c || between 216 222 c
  then ascii_of_nat (code c + 32) else c.

Fixpoint lower (s : string) : string :=
  match s with
  | EmptyString => EmptyString
  | String c s' => String (lower_char c) (lower s')
  end.

Fixpoint lstrip (s : string) : string :=
  match s with
  | EmptyString => EmptyString
  | String c s' => if isspace c then lstrip s' else s
  end.

Fixpoint rstrip (s : string) : string :=
  match s with
  | EmptyString => EmptyString
  | String c s' =>
      match rstrip s' with
      | EmptyString => if isspace c then EmptyString else String c EmptyString
      | r => String c r
      end
  end.

(** [s.strip()] *)
Definition strip (s : string) : string := rstrip (lstrip s).

(** [s.replace(a, b)] for one-character [a] and [b]. *)
Fixpoint replace_char (a b : ascii) (s : string) : string :=
  match s with
  | EmptyString => EmptyString
  | String c s' =>
      String (if Ascii.eqb c a then b else c) (replace_char a b s')
  end.

Definition is_empty (s : string) : bool :=
  match s with EmptyString => true | _ => false end.

(** [sep.join(parts)] on strings. *)
Fixpoint join (sep : string) (parts : list string) : string :=
  match parts with
  | [] => EmptyString
  | [p] => p
  | p :: rest => p ++ sep ++ join sep rest
  end.

(** The suffix of [s] from position [n]: [s[n:]]. *)
Fixpoint drop (n : nat) (s : string) : string :=
  match n, s with
  | O, _ => s
  | S _, EmptyString => EmptyString
  | S n', String _ s' => drop n' s'
  end.

(** [str(n)] for an [int]. *)
Definition of_Z (n : Z) : string := NilZero.string_of_int (Z.to_int n).

Definition hex_digit (n : nat) : ascii :=
  if (n <? 10)%nat then ascii_of_nat (48 + n) else ascii_of_nat (87 + n).

Definition quote : ascii := "'"%char.
Definition dquote : ascii := ascii_of_nat 34.
Definition backslash : ascii := ascii_of_nat 92.

Fixpoint contains (a : ascii) (s : string) : bool :=
  match s with
  | EmptyString => false
  | String c s' => Ascii.eqb a c || contains a s'
  end.

(** What [repr] writes for one character inside the quotes [q]. *)
Definition repr_char (q c : ascii) : string :=
  let n := code c in
  if Ascii.eqb c q || Ascii.eqb c backslash then String backslash (String c EmptyString)
  else if (n =? 9)%nat then String backslash "t"
  else if (n =? 10)%nat then String backslash "n"
  else if (n =? 13)%nat then String backslash "r"
  else if (n <? 32)%nat || between 127 160 c || (n =? 173)%nat
  then String backslash (String "x" (String (hex_digit (n / 16))
                                       (String (hex_digit (n mod 16)) EmptyString)))
  else String c EmptyString.

Fixpoint repr_body (q : ascii) (s : string) : string :=
  match s with
  | EmptyString => EmptyString
  | String c s' => repr_char q c ++ repr_body q s'
  end.

(** [repr(s)] for a [str]: single quotes, unless the text holds a single
    quote and no double quote. *)
Definition repr (s : string) : string :=
  let q := if contains quote s && negb (contains dquote s) then dquote else quote in
  String q (repr_body q s ++ String q EmptyString).

(** Every character of [s] is in the class [p]. *)
Fixpoint all_chars (p : ascii -> bool) (s : string) : bool :=
  match s with
  | EmptyString => true
  | String c s' => p c && all_chars p s'
  end.

(** [s[:n]] for an [int] [n]; a negative [n] counts from the end. *)
Definition slice_to (n : Z) (s : string) : string :=
  if (0 <=? n)%Z then substring 0 (Z.to_nat n) s
  else substring 0 (String.length s - Z.to_nat (- n)) s.

(** The part before the last space, if there is a space. *)
Fixpoint rsplit_space (s : string) : option string :=
  match s with
  | EmptyString => None
  | String c s' =>
      match rsplit_space s' with
      | Some p => Some (String c p)
      | None => if is_char " "%char c then Some EmptyString else None
      end
  end.

(** [s.rsplit(" ", 1)[0]] *)
Definition before_last_space (s : string) : string :=
  match rsplit_space s with
  | Some p => p
  | None => s
  end.

End Text.

(* ================================================================== *)
(** ** Exceptions *)

Inductive exn : Type :=
| AttributeError
| TypeError
| KeyError.

Inductive result (A : Type) : Type :=
| Ok (a : A)
| Raise (e : exn).

Arguments Ok {A} a.
Arguments Raise {A} e.

Definition bind {A B : Type} (m : result A) (f : A -> result B) : result B :=
  match m with
  | Ok a => f a
  | Raise e => Raise e
  end.

Notation "x <- m ;; k" := (bind m (fun x => k))
  (at level 61, m at next level, right associativity).

Definition returns {A : Type} (m : result A) : bool :=
  match m with Ok _ => true | Raise _ => false end.

(** A [for] loop whose body may raise, threading the state it mutates. *)
Fixpoint foldM {A B : Type} (f : A -> B -> result A) (acc : A) (l : list B)
  : result A :=
  match l with
  | [] => Ok acc
  | x :: l' => acc' <- f acc x ;; foldM f acc' l'
  end.

(* ================================================================== *)
(** ** Insertion-ordered maps with string keys *)

Section Assoc.
Context {A : Type}.

(** [d.get(k)], [None] standing for an absent key. *)
Fixpoint assoc_get (k : string) (d : list (string * A)) : option A :=
  match d with
  | [] => None
  | (k', v) :: d' => if String.eqb k k' then Some v else assoc_get k d'
  end.

(** [d[k] = v]: an existing key keeps its position, a new one goes last. *)
Fixpoint assoc_set (k : string) (v : A) (d : list (string * A))
  : list (string * A) :=
  match d with
  | [] => [(k, v)]
  | (k', v') :: d' =>
      if String.eqb k k' then (k, v) :: d' else (k', v') :: assoc_set k v d'
  end.

(** The last binding of [k] in a sequence of assignments. *)
Fixpoint last_assigned (k : string) (l : list (string * A)) : option A :=
  match l with
  | [] => None
  | (k', v) :: l' =>
      match last_assigned k l' with
      | Some w => Some w
      | None => if String.eqb k k' then Some v else None
      end
  end.

Definition assign_all (l : list (string * A)) (d : list (string * A))
  : list (string * A) :=
  fold_left (fun acc kv => assoc_set (fst kv) (snd kv) acc) l d.

End Assoc.

(* ================================================================== *)
(** ** Regular expressions

    The fragment of Python's [re] that the adapter's patterns are written
    in, with the semantics of its backtracking matcher: alternatives are
    tried left to right, quantifiers are greedy, and the first way to
    complete the whole pattern is the match. *)

Module Regex.

Inductive regex : Type :=
| REps
| RChar (p : ascii -> bool)           (* one character of a class *)
| RSeq (r1 r2 : regex)
| RAlt (r1 r2 : regex)                (* r1|r2 *)
| ROpt (r : regex)                    (* r? *)
| RStar (p : ascii -> bool)           (* c*, for a one-character class c *)
| RGroup (g : string) (r : regex).    (* (?P<g>r) *)

(** [c+] *)
Definition RPlus (p : ascii -> bool) : regex := RSeq (RChar p) (RStar p).

(** A literal character under [re.IGNORECASE], given in lower case. *)
Definition ichar (a : ascii) : regex :=
  RChar (fun c => Ascii.eqb (Text.lower_char c) a).

(** A literal word under [re.IGNORECASE], given in lower case. *)
Fixpoint iword (w : string) : regex :=
  match w with
  | EmptyString => REps
  | String a w' => RSeq (ichar a) (iword w')
  end.

Fixpoint seq (rs : list regex) : regex :=
  match rs with
  | [] => REps
  | r :: rs' => RSeq r (seq rs')
  end.

(** The groups that took part in a match, with the text each captured. *)
Definition captures : Type := list (string * string).

(** The part of [s] consumed when [rest] is what remains of it. *)
Definition consumed (s rest : string) : string :=
  substring 0 (String.length s - String.length rest) s.

Section Matcher.
Context {A : Type}.

Fixpoint star_match (p : ascii -> bool) (s : string)
         (k : string -> option A) : option A :=
  match s with
  | EmptyString => k s
  | String c s' =>
      if p c then
        match star_match p s' k with
        | Some a => Some a
        | None => k s
        end
      else k s
  end.

(** [rmatch r s caps k]: match [r] at the head of [s], then continue
    with [k] on the rest; when [k] fails, the next way of matching [r]
    is tried. *)
Fixpoint rmatch (r : regex) (s : string) (caps : captures)
         (k : string -> captures -> option A) : option A :=
  match r with
  | REps => k s caps
  | RChar p =>
      match s with
      | String c s' => if p c then k s' caps else None
      | EmptyString => None
      end
  | RSeq r1 r2 => rmatch r1 s caps (fun s1 c1 => rmatch r2 s1 c1 k)
  | RAlt r1 r2 =>
      match rmatch r1 s caps k with
      | Some a => Some a
      | None => rmatch r2 s caps k
      end
  | ROpt r1 =>
      match rmatch r1 s caps k with
      | Some a => Some a
      | None => k s caps
      end
  | RStar p => star_match p s (fun s' => k s' caps)
  | RGroup g r1 =>
      rmatch r1 s caps
             (fun s1 c1 => k s1 (assoc_set g (consumed s s1) c1))
  end.
End Matcher.

(** [p.match(s)] on what is left of the text: a match starting here. *)
Definition match_here (r : regex) (s : string) : option captures :=
  rmatch r s [] (fun _ caps => Some caps).

(** [p.search(s)]: the match at the leftmost position that has one. *)
Fixpoint search (r : regex) (s : string) : option captures :=
  match match_here r s with
  | Some m => Some m
  | None =>
      match s with
      | EmptyString => None
      | String _ s' => search r s'
      end
  end.

(** Every successful match of [r] sets group [g]. *)
Fixpoint binds (g : string) (r : regex) : bool :=
  match r with
  | REps | RChar _ | RStar _ | ROpt _ => false
  | RSeq r1 r2 => binds g r1 || binds g r2
  | RAlt r1 r2 => binds g r1 && binds g r2
  | RGroup g' r1 => String.eqb g g' || binds g r1
  end.

(** Groups set before a match stay set. *)
Definition keeps (c1 c2 : captures) : Prop :=
  forall g, assoc_get g c1 <> None -> assoc_get g c2 <> None.

(** The texts a pattern can consume. *)
Inductive Lang : regex -> string -> Prop :=
| LEps : Lang REps EmptyString
| LChar (p : ascii -> bool) (c : ascii) :
    p c = true -> Lang (RChar p) (String c EmptyString)
| LSeq (r1 r2 : regex) (w1 w2 : string) :
    Lang r1 w1 -> Lang r2 w2 -> Lang (RSeq r1 r2) (w1 ++ w2)
| LAltL (r1 r2 : regex) (w : string) : Lang r1 w -> Lang (RAlt r1 r2) w
| LAltR (r1 r2 : regex) (w : string) : Lang r2 w -> Lang (RAlt r1 r2) w
| LOptSome (r : regex) (w : string) : Lang r w -> Lang (ROpt r) w
| LOptNone (r : regex) : Lang (ROpt r) EmptyString
| LStarNil (p : ascii -> bool) : Lang (RStar p) EmptyString
| LStarCons (p : ascii -> bool) (c : ascii) (w : string) :
    p c = true -> Lang (RStar p) w -> Lang (RStar p) (String c w)
| LGroup (g : string) (r : regex) (w : string) :
    Lang r w -> Lang (RGroup g r) w.

(** The named groups of a pattern, each with its body. *)
Fixpoint groups_of (r : regex) : list (string * regex) :=
  match r with
  | REps | RChar _ | RStar _ => []
  | RSeq r1 r2 | RAlt r1 r2 => (groups_of r1 ++ groups_of r2)%list
  | ROpt r1 => groups_of r1
  | RGroup g r1 => (g, r1) :: groups_of r1
  end.

(** Every group that is set holds a text its body can consume. *)
Definition captures_in (G : list (string * regex)) (caps : captures) : Prop :=
  forall g t,
    assoc_get g caps = Some t -> exists r, In (g, r) G /\ Lang r t.

(** Every character class of the pattern lies within the class [P]. *)
Fixpoint within (P : ascii -> bool) (r : regex) : Prop :=
  match r with
  | REps => True
  | RChar p | RStar p => forall c, p c = true -> P c = true
  | RSeq r1 r2 | RAlt r1 r2 => within P r1 /\ within P r2
  | ROpt r1 | RGroup _ r1 => within P r1
  end.

End Regex.

(* ================================================================== *)
(** ** Python values *)

(** The operations of Python's [float] the adapter relies on. *)
Class PyFloat : Type := {
  float : Type;
  (** [bool(x)]: [x != 0.0] *)
  float_truthy : float -> bool;
  (** [float(s)]; [None] when it raises [ValueError] *)
  float_of_str : string -> option float;
  (** [str(x)] *)
  float_str : float -> string
}.

Section Python.
Context {PF : PyFloat}.

Inductive value : Type :=
| VNone
| VBool (b : bool)
| VInt (n : Z)
| VFloat (x : float)
| VStr (s : string)
| VList (items : list value)
| VDict (entries : list (string * value)).

Definition dict : Type := list (string * value).

Definition empty_dict : value := VDict [].
Definition empty_list : value := VList [].
Definition empty_str : value := VStr EmptyString.

(** [bool(v)] *)
Definition truthy (v : value) : bool :=
  match v with
  | VNone => false
  | VBool b => b
  | VInt n => negb (n =? 0)%Z
  | VFloat x => float_truthy x
  | VStr s => negb (Text.is_empty s)
  | VList l => match l with [] => false | _ => true end
  | VDict d => match d with [] => false | _ => true end
  end.

(** [a or b], for a [b] whose evaluation cannot raise. *)
Definition py_or (a b : value) : value := if truthy a then a else b.

(** [a or b] in general: [b] is evaluated only when [a] is falsy. *)
Definition or_else (a b : result value) : result value :=
  v <- a ;; if truthy v then Ok v else b.

Definition is_dict (v : value) : bool :=
  match v with VDict _ => true | _ => false end.

Definition is_list (v : value) : bool :=
  match v with VList _ => true | _ => false end.

Definition is_str (v : value) : bool :=
  match v with VStr _ => true | _ => false end.

(** [d.get(k, dflt)] on a [dict]. *)
Definition dict_get_or (k : string) (dflt : value) (d : dict) : value :=
  match assoc_get k d with
  | Some v => v
  | None => dflt
  end.

(** [d.get(k)] *)
Definition dict_get (k : string) (d : dict) : value := dict_get_or k VNone d.

(** [obj.get(k, dflt)] on any value: only a [dict] has the method. *)
Definition attr_get_or (obj : value) (k : string) (dflt : value) : result value :=
  match obj with
  | VDict d => Ok (dict_get_or k dflt d)
  | _ => Raise AttributeError
  end.

Definition attr_get (obj : value) (k : string) : result value :=
  attr_get_or obj k VNone.

(** [obj[k]] for a string key. *)
Definition subscript (obj : value) (k : string) : result value :=
  match obj with
  | VDict d =>
      match assoc_get k d with
      | Some v => Ok v
      | None => Raise KeyError
      end
  | _ => Raise TypeError
  end.

(** [obj.strip()]: a method of [str] only. *)
Definition attr_strip (obj : value) : result string :=
  match obj with
  | VStr s => Ok (Text.strip s)
  | _ => Raise AttributeError
  end.

(** [sep.join(l)]: every element has to be a [str]. *)
Fixpoint strs_of (l : list value) : result (list string) :=
  match l with
  | [] => Ok []
  | VStr s :: l' => rest <- strs_of l' ;; Ok (s :: rest)
  | _ :: _ => Raise TypeError
  end.

(** [sep.join(v)]: [v] is iterated, a [str] by its characters and a [dict]
    by its keys. *)
Definition py_join (sep : string) (v : value) : result string :=
  match v with
  | VList l => parts <- strs_of l ;; Ok (Text.join sep parts)
  | VStr s =>
      Ok (Text.join sep
            (map (fun c => String c EmptyString) (list_ascii_of_string s)))
  | VDict d => Ok (Text.join sep (map fst d))
  | _ => Raise TypeError
  end.

(** [repr(v)] *)
Fixpoint py_repr (v : value) : string :=
  match v with
  | VNone => "None"
  | VBool true => "True"
  | VBool false => "False"
  | VInt n => Text.of_Z n
  | VFloat x => float_str x
  | VStr s => Text.repr s
  | VList l => "[" ++ Text.join ", " (map py_repr l) ++ "]"
  | VDict d =>
      "{" ++ Text.join ", "
               (map (fun kv => Text.repr (fst kv) ++ ": " ++ py_repr (snd kv)) d)
          ++ "}"
  end.

(** [str(v)], which is also what an f-string field [{v}] renders. *)
Definition py_str (v : value) : string :=
  match v with
  | VStr s => s
  | _ => py_repr v
  end.

(** [v == s] for a [str] constant [s]. *)
Definition eq_str (v : value) (s : string) : bool :=
  match v with
  | VStr t => String.eqb t s
  | _ => false
  end.

(* ================================================================== *)
(** ** eff/adapters_v1.py *)

Import Regex.

Definition space : ascii := " "%char.
Definition underscore : ascii := "_"%char.
Definition backtick : ascii := "`"%char.

(** [[-+]] *)
Definition is_sign (c : ascii) : bool :=
  Text.is_char "-"%char c || Text.is_char "+"%char c.

(** [[\w_]] *)
Definition is_name_char (c : ascii) : bool :=
  Text.isword c || Text.is_char underscore c.

(** [_NUM = r"[-+]?\d*\.?\d+"] *)
Definition NUM : regex :=
  seq [ROpt (RChar is_sign); RStar Text.isdigit;
       ROpt (RChar (Text.is_char "."%char)); RPlus Text.isdigit].

(** [(?P<k>[\w_]+)] *)
Definition NAME : regex := RGroup "k" (RPlus is_name_char).

(** [(?P<v>true|false)] *)
Definition BOOL : regex := RGroup "v" (RAlt (iword "true") (iword "false")).

(** [`(?P<k>[\w_]+)`\s+is\s+(?P<v>_NUM)] *)
Definition NUM_BACKTICK : regex :=
  seq [RChar (Text.is_char backtick); NAME; RChar (Text.is_char backtick);
       RPlus Text.isspace; iword "is"; RPlus Text.isspace; RGroup "v" NUM].

(** [(?P<k>[\w_]+)\s*:\s*(?P<v>_NUM)] *)
Definition NUM_COLON : regex :=
  seq [NAME; RStar Text.isspace; RChar (Text.is_char ":"%char);
       RStar Text.isspace; RGroup "v" NUM].

(** [(?P<k>[\w_]+)\s+is\s+(?P<v>_NUM)] *)
Definition NUM_IS : regex :=
  seq [NAME; RPlus Text.isspace; iword "is"; RPlus Text.isspace; RGroup "v" NUM].

(** [(?P<k>[\w_]+)\s+is\s+(?P<v>true|false)] *)
Definition BOOL_IS : regex :=
  seq [NAME; RPlus Text.isspace; iword "is"; RPlus Text.isspace; BOOL].

(** [(?P<k>[\w_]+)\s*:\s*(?P<v>true|false)] *)
Definition BOOL_COLON : regex :=
  seq [NAME; RStar Text.isspace; RChar (Text.is_char ":"%char);
       RStar Text.isspace; BOOL].

Definition _PATTERNS : list regex := [NUM_BACKTICK; NUM_COLON; NUM_IS].

Definition _BOOL_PATTERNS : list regex := [BOOL_IS; BOOL_COLON].

(** [m.group(g)], as the receiver of a method call: a group that took no
    part in the match is [None], which has no [str] method. *)
Definition group (m : captures) (g : string) : result string :=
  match assoc_get g m with
  | Some s => Ok s
  | None => Raise AttributeError
  end.

(** What [_try_add(k, v)] stores, if anything: the key and its value. *)
Definition feature_entry (k v : string) : option (string * value) :=
  let k := Text.strip k in
  if Text.is_empty k then None
  else
    let k := Text.replace_char space underscore k in
    let lv := Text.lower v in
    if String.eqb lv "true" || String.eqb lv "false"
    then Some (k, VBool (String.eqb lv "true"))
    else
      match float_of_str v with
      | Some x => Some (k, VFloat x)
      | None => None
      end.

(** [_try_add], on the [feats] it closes over. *)
Definition _try_add (feats : dict) (k v : string) : dict :=
  match feature_entry k v with
  | Some (k', x) => assoc_set k' x feats
  | None => feats
  end.

(** The body of the two inner loops: one pattern on one text. *)
Definition scan_pattern (s : string) (feats : dict) (p : regex) : result dict :=
  match search p s with
  | Some m =>
      k <- group m "k" ;;
      v <- group m "v" ;;
      Ok (_try_add feats k v)
  | None => Ok feats
  end.

(** The body of [for s in items]. *)
Definition scan_item (feats : dict) (s : string) : result dict :=
  let s := Text.strip s in
  feats <- foldM (scan_pattern s) feats _BOOL_PATTERNS ;;
  foldM (scan_pattern s) feats _PATTERNS.

(** The [items] of one argument, or [None] where the loop [continue]s. *)
Definition items_of (L : value) : option (list string) :=
  if negb (truthy L) then None
  else
    match L with
    | VStr s => Some [s]
    | VList l => Some (map py_str l)
    | _ => None
    end.

(** The body of [for L in lists]. *)
Definition scan_list (feats : dict) (L : value) : result dict :=
  match items_of L with
  | Some items => foldM scan_item feats items
  | None => Ok feats
  end.

Definition _extract_features_from_text_lists (lists : list value) : result dict :=
  foldM scan_list [] lists.

Definition EM_DASH : string := "—".

(** The record stored under a scenario's name: the [dict] literal of the
    loop body. *)
Definition scenario_record (rec : dict) : value :=
  VDict
    [("earnings_direction", dict_get_or "earnings_direction" (VStr EM_DASH) rec);
     ("confidence", py_or (dict_get "confidence" rec) (VStr EM_DASH));
     ("primary_drivers",
       py_or (dict_get_or "primary_drivers" empty_list rec) empty_list);
     ("explanation", py_or (dict_get_or "description" empty_str rec) empty_str)].

(** The body of [for s in scenarios_list]. *)
Definition scenario_step (out : dict) (s : value) : result dict :=
  match s with
  | VDict rec =>
      stripped <- attr_strip (py_or (dict_get "scenario" rec) empty_str) ;;
      let name := Text.lower stripped in
      if Text.is_empty name then Ok out
      else Ok (assoc_set name (scenario_record rec) out)
  | _ => Ok out
  end.

Definition _scenarios_list_to_dict (scenarios_list : value) : result dict :=
  match scenarios_list with
  | VList l => foldM scenario_step [] l
  | _ => Ok []
  end.

(** One of the two [if isinstance(...) and ...: drivers.append(...)]. *)
Definition add_driver (narrative : value) (key label : string)
           (drivers : list value) : result (list value) :=
  c <- attr_get narrative key ;;
  if is_list c then
    c <- subscript narrative key ;;
    if truthy c then
      c <- subscript narrative key ;;
      joined <- py_join "; " c ;;
      Ok (drivers ++ [VStr (label ++ joined)])%list
    else Ok drivers
  else Ok drivers.

(** [f"{posture}." + (f" Capacity reality: {cap_reality}." if cap_reality else "")] *)
Definition headline_of (posture cap_reality : value) : string :=
  (py_str posture ++ ".")
  ++ (if truthy cap_reality
      then " Capacity reality: " ++ py_str cap_reality ++ "."
      else EmptyString).

Definition SCHEMA_V1 : string := "eff_assessment_v1".

Definition adapt_internal_bundle_to_v1 (final_out : dict) : result dict :=
  let demand := py_or (dict_get_or "demand" empty_dict final_out) empty_dict in
  let capacity := py_or (dict_get_or "capacity" empty_dict final_out) empty_dict in
  let risk := py_or (dict_get_or "risk" empty_dict final_out) empty_dict in
  let narrative := py_or (dict_get_or "narrative" empty_dict final_out) empty_dict in
  let scenarios_obj := py_or (dict_get_or "scenarios" empty_dict final_out) empty_dict in
  business_id <-
    or_else (Ok (dict_get "business_id" final_out))
      (or_else (attr_get scenarios_obj "business_id")
         (or_else (attr_get narrative "business_id")
            (or_else (attr_get demand "business_id")
               (Ok (VStr EM_DASH))))) ;;
  diag <-
    (if is_dict narrative
     then d <- attr_get narrative "diagnostics" ;; Ok (py_or d empty_dict)
     else Ok empty_dict) ;;
  posture <-
    or_else (attr_get scenarios_obj "posture")
      (or_else (attr_get diag "earnings_posture_rule_result")
         (Ok (VStr "Unknown"))) ;;
  confidence <-
    or_else (attr_get narrative "confidence_level")
      (or_else (attr_get diag "confidence_level_rule_result")
         (Ok (VStr "unknown"))) ;;
  cap_reality <- attr_get diag "capacity_reality" ;;
  let headline := headline_of posture cap_reality in
  summary <-
    or_else (attr_get narrative "base_case_summary")
      (or_else (attr_get narrative "future_earnings_profile")
         (Ok empty_str)) ;;
  drivers <- add_driver narrative "upside_conditions" "Upside conditions: " [] ;;
  drivers <- add_driver narrative "downside_risks" "Downside risks: " drivers ;;
  scenarios_list <- attr_get_or scenarios_obj "scenarios" empty_list ;;
  scenarios_dict <- _scenarios_list_to_dict scenarios_list ;;
  let feats := dict_get "features" final_out in
  feats <-
    (if negb (is_dict feats) || negb (truthy feats) then
       kd <- attr_get demand "key_factors" ;;
       kc <- attr_get capacity "key_factors" ;;
       kr <- attr_get risk "key_factors" ;;
       extracted <- _extract_features_from_text_lists [kd; kc; kr] ;;
       Ok (VDict extracted)
     else Ok feats) ;;
  r1 <- attr_get diag "demand_certainty" ;;
  r2 <- attr_get diag "capacity_reality" ;;
  r3 <- attr_get diag "earnings_posture_rule_result" ;;
  r4 <- attr_get diag "confidence_level_rule_result" ;;
  let rules_fired :=
    [VStr ("demand_certainty: " ++ py_str r1);
     VStr ("capacity_reality: " ++ py_str r2);
     VStr ("earnings_posture: " ++ py_str r3);
     VStr ("confidence: " ++ py_str r4)] in
  Ok [("schema_version", VStr SCHEMA_V1);
      ("business_id", business_id);
      ("window_weeks", dict_get_or "window_weeks" (VInt 8) final_out);
      ("posture", posture);
      ("confidence", confidence);
      ("headline", VStr headline);
      ("signals",
        VDict [("demand", demand); ("capacity", capacity); ("risk", risk)]);
      ("scenarios", VDict scenarios_dict);
      ("narrative",
        VDict [("summary", summary); ("drivers", VList drivers)]);
      ("explainability", VDict [("features", feats)]);
      ("diagnostics",
        VDict [("rules_fired", VList rules_fired); ("flags", empty_dict)])].

(* ================================================================== *)
(** ** app/streamlit_app.py *)

Definition is_v1 (payload : dict) : bool :=
  eq_str (dict_get "schema_version" payload) SCHEMA_V1.

Definition to_v1 (payload : dict) : result dict :=
  if is_v1 payload then Ok payload
  else adapt_internal_bundle_to_v1 payload.

(* ================================================================== *)
(** ** The vocabulary of the specification *)

(** The entries of a mapping; a value of another type has none. *)
Definition entries_of (v : value) : dict :=
  match v with VDict m => m | _ => [] end.

(** A section of the bundle, read as [final_out.get(name, {}) or {}]. *)
Definition section_of (name : string) (final_out : dict) : value :=
  py_or (dict_get_or name empty_dict final_out) empty_dict.

(** [narrative.diagnostics], read as the adapter reads it. *)
Definition diagnostics_of (final_out : dict) : value :=
  match section_of "narrative" final_out with
  | VDict n => py_or (dict_get "diagnostics" n) empty_dict
  | _ => empty_dict
  end.

(** A fallback chain: the first truthy candidate, else the default. *)
Definition first_truthy (candidates : list value) (dflt : value) : value :=
  match find truthy candidates with
  | Some v => v
  | None => dflt
  end.

Definition business_id_chain (final_out : dict) : value :=
  first_truthy
    [dict_get "business_id" final_out;
     dict_get "business_id" (entries_of (section_of "scenarios" final_out));
     dict_get "business_id" (entries_of (section_of "narrative" final_out));
     dict_get "business_id" (entries_of (section_of "demand" final_out))]
    (VStr EM_DASH).

(** The value found by following a path of keys through nested mappings. *)
Fixpoint at_path (path : list string) (v : value) : option value :=
  match path with
  | [] => Some v
  | k :: rest =>
      match v with
      | VDict m =>
          match assoc_get k m with
          | Some v' => at_path rest v'
          | None => None
          end
      | _ => None
      end
  end.

Definition has_path (path : list string) (v : value) : bool :=
  match at_path path v with Some _ => true | None => false end.

(** The keys of the canonical document. *)
Definition V1_PATHS : list (list string) :=
  [["schema_version"]; ["business_id"]; ["window_weeks"]; ["posture"];
   ["confidence"]; ["headline"];
   ["signals"; "demand"]; ["signals"; "capacity"]; ["signals"; "risk"];
   ["scenarios"];
   ["narrative"; "summary"]; ["narrative"; "drivers"];
   ["explainability"; "features"];
   ["diagnostics"; "rules_fired"]; ["diagnostics"; "flags"]].

Definition fully_shaped (out : dict) : bool :=
  forallb (fun path => has_path path (VDict out)) V1_PATHS.

(** *** Well-typed bundles

    What the adapter tolerates in place of a mapping is an absent or falsy
    value; in place of a list, any value that is not a list; in place of a
    scenario record, any value that is not a mapping. *)

Definition section_ok (v : value) : bool := negb (truthy v) || is_dict v.

Definition strings_ok (v : value) : bool :=
  match v with
  | VList l => forallb is_str l
  | _ => true
  end.

Definition scenario_ok (s : value) : bool :=
  match s with
  | VDict rec =>
      let n := dict_get "scenario" rec in negb (truthy n) || is_str n
  | _ => true
  end.

Definition scenario_list_ok (v : value) : bool :=
  match v with
  | VList l => forallb scenario_ok l
  | _ => true
  end.

Definition typed_core (final_out : dict) : bool :=
  let narrative := entries_of (section_of "narrative" final_out) in
  let scenarios_obj := entries_of (section_of "scenarios" final_out) in
  section_ok (dict_get "scenarios" final_out)
  && section_ok (dict_get "narrative" final_out)
  && section_ok (dict_get "demand" final_out)
  && section_ok (dict_get "diagnostics" narrative)
  && strings_ok (dict_get "upside_conditions" narrative)
  && strings_ok (dict_get "downside_risks" narrative)
  && scenario_list_ok (dict_get_or "scenarios" empty_list scenarios_obj).

Definition typed_signals (final_out : dict) : bool :=
  section_ok (dict_get "capacity" final_out)
  && section_ok (dict_get "risk" final_out).

(** A structured [features] mapping is present, a mapping and non-empty. *)
Definition has_features (final_out : dict) : bool :=
  let feats := dict_get "features" final_out in
  is_dict feats && truthy feats.

(** *** Scenario records, one by one *)

(** The normalised name of a record: lower-cased and trimmed. *)
Definition scenario_name (rec : dict) : string :=
  match py_or (dict_get "scenario" rec) empty_str with
  | VStr s => Text.lower (Text.strip s)
  | _ => EmptyString
  end.

(** What one entry of the list contributes: nothing when it is not a
    mapping or when its name is empty after trimming. *)
Definition scenario_entry (s : value) : list (string * value) :=
  match s with
  | VDict rec =>
      if Text.is_empty (scenario_name rec) then []
      else [(scenario_name rec, scenario_record rec)]
  | _ => []
  end.

Definition scenario_entries (l : list value) : list (string * value) :=
  flat_map scenario_entry l.

(** *** Feature hits, one by one *)

(** What one surface form records on one text: the first match of the
    form in the text, if it has one and the match yields a value. *)
Definition pattern_hit (s : string) (p : regex) : list (string * value) :=
  match search p s with
  | Some m =>
      match assoc_get "k" m, assoc_get "v" m with
      | Some k, Some v =>
          match feature_entry k v with
          | Some e => [e]
          | None => []
          end
      | _, _ => []
      end
  | None => []
  end.

(** The hits of one text item, in the order the forms are attempted. *)
Definition item_hits (s : string) : list (string * value) :=
  flat_map (pattern_hit (Text.strip s))
           [BOOL_IS; BOOL_COLON; NUM_BACKTICK; NUM_COLON; NUM_IS].

Definition list_hits (L : value) : list (string * value) :=
  match items_of L with
  | Some items => flat_map item_hits items
  | None => []
  end.

(** The hits of all processed items, in input order. *)
Definition all_hits (lists : list value) : list (string * value) :=
  flat_map list_hits lists.

(** The three [key_factors] arguments of the extraction. *)
Definition key_factor_lists (final_out : dict) : list value :=
  [dict_get "key_factors" (entries_of (section_of "demand" final_out));
   dict_get "key_factors" (entries_of (section_of "capacity" final_out));
   dict_get "key_factors" (entries_of (section_of "risk" final_out))].

(** The headline in the specification's wording: the trailing clause goes
    with a [capacity_reality] field that is present. *)
Definition headline_if_present (posture : value) (cap : option value) : string :=
  (py_str posture ++ ".")
  ++ match cap with
     | Some c => " Capacity reality: " ++ py_str c ++ "."
     | None => EmptyString
     end.

(** How the [features] of the output come about. *)
Definition features_from (d : dict) (feats : value) : Prop :=
  (has_features d = true /\ feats = dict_get "features" d)
  \/ (has_features d = false
      /\ is_dict (section_of "demand" d) = true
      /\ is_dict (section_of "capacity" d) = true
      /\ is_dict (section_of "risk" d) = true
      /\ feats = VDict (assign_all (all_hits (key_factor_lists d)) [])).

(** *** Sample documents *)

(** What the adapter makes of the empty mapping. *)
Definition v1_defaults : dict :=
  [("schema_version", VStr "eff_assessment_v1");
   ("business_id", VStr EM_DASH);
   ("window_weeks", VInt 8);
   ("posture", VStr "Unknown");
   ("confidence", VStr "unknown");
   ("headline", VStr "Unknown.");
   ("signals",
     VDict [("demand", VDict []); ("capacity", VDict []); ("risk", VDict [])]);
   ("scenarios", VDict []);
   ("narrative", VDict [("summary", VStr EmptyString); ("drivers", VList [])]);
   ("explainability", VDict [("features", VDict [])]);
   ("diagnostics",
     VDict [("rules_fired",
              VList [VStr "demand_certainty: None";
                     VStr "capacity_reality: None";
                     VStr "earnings_posture: None";
                     VStr "confidence: None"]);
            ("flags", VDict [])])].

(** [{"demand": "steady orders"}] *)
Definition bundle_text_demand : dict := [("demand", VStr "steady orders")].

(** [{"scenarios": {"posture": "Strong"},
      "narrative": {"diagnostics": {"capacity_reality": false}}}] *)
Definition bundle_false_capacity_reality : dict :=
  [("scenarios", VDict [("posture", VStr "Strong")]);
   ("narrative",
     VDict [("diagnostics", VDict [("capacity_reality", VBool false)])])].

(** [[{"scenario": "Base", "earnings_direction": "Up"},
      {"scenario": "BASE", "earnings_direction": "Down"}]] *)
Definition scenarios_base_twice : value :=
  VList [VDict [("scenario", VStr "Base"); ("earnings_direction", VStr "Up")];
         VDict [("scenario", VStr "BASE"); ("earnings_direction", VStr "Down")]].

(** [{"demand": null, "narrative": {"upside_conditions": 3},
      "scenarios": {"scenarios": "none yet"}}] *)
Definition bundle_sparse : dict :=
  [("demand", VNone);
   ("narrative", VDict [("upside_conditions", VInt 3)]);
   ("scenarios", VDict [("scenarios", VStr "none yet")])].

(** [{"scenarios": {"scenarios": [1, "base", {"scenario": "Base"}]}}] *)
Definition bundle_stray_entries : dict :=
  [("scenarios",
     VDict [("scenarios",
              VList [VInt 1; VStr "base"; VDict [("scenario", VStr "Base")]])])].

(** [{"schema_version": "eff_assessment_v1", "posture": "Strong"}] *)
Definition doc_canonical : dict :=
  [("schema_version", VStr "eff_assessment_v1"); ("posture", VStr "Strong")].

(** [{"narrative": {"business_id": "biz-7"}}] *)
Definition bundle_narrative_id : dict :=
  [("narrative", VDict [("business_id", VStr "biz-7")])].

(** [{"business_id": "biz-1", "narrative": {"business_id": "biz-7"}}] *)
Definition bundle_two_ids : dict :=
  [("business_id", VStr "biz-1");
   ("narrative", VDict [("business_id", VStr "biz-7")])].

(** [{"scenarios": {"posture": "Strong"},
      "narrative": {"diagnostics": {"capacity_reality": "constrained"}}}] *)
Definition bundle_constrained : dict :=
  [("scenarios", VDict [("posture", VStr "Strong")]);
   ("narrative",
     VDict [("diagnostics", VDict [("capacity_reality", VStr "constrained")])])].

(** [{"scenarios": {"posture": "Strong"}}] *)
Definition bundle_strong : dict :=
  [("scenarios", VDict [("posture", VStr "Strong")])].

(** [{"window_weeks": null}] *)
Definition bundle_null_weeks : dict := [("window_weeks", VNone)].



(** The document a run returned; the empty mapping stands for a run that
    raised. *)
Definition the_output (r : result dict) : dict :=
  match r with Ok out => out | Raise _ => [] end.

(** A field of the document a run returned. *)
Definition output_field (k : string) (r : result dict) : option value :=
  match r with Ok out => Some (dict_get k out) | Raise _ => None end.

(* ================================================================== *)
(** ** The rest of the adapter's vocabulary *)

Definition posture_chain (final_out : dict) : value :=
  first_truthy
    [dict_get "posture" (entries_of (section_of "scenarios" final_out));
     dict_get "earnings_posture_rule_result"
              (entries_of (diagnostics_of final_out))]
    (VStr "Unknown").

Definition confidence_chain (final_out : dict) : value :=
  first_truthy
    [dict_get "confidence_level" (entries_of (section_of "narrative" final_out));
     dict_get "confidence_level_rule_result"
              (entries_of (diagnostics_of final_out))]
    (VStr "unknown").

Definition summary_chain (final_out : dict) : value :=
  first_truthy
    [dict_get "base_case_summary"
              (entries_of (section_of "narrative" final_out));
     dict_get "future_earnings_profile"
              (entries_of (section_of "narrative" final_out))]
    empty_str.

(** The driver line a narrative list gives rise to: none unless it is a
    non-empty list. *)
Definition driver_line (narrative : dict) (key label : string) : list value :=
  match dict_get key narrative with
  | VList (x :: l) => [VStr (label ++ Text.join "; " (map py_str (x :: l)))]
  | _ => []
  end.

Definition drivers_of (narrative : dict) : list value :=
  (driver_line narrative "upside_conditions" "Upside conditions: "
   ++ driver_line narrative "downside_risks" "Downside risks: ")%list.

(** The labels of [rules_fired], each with the diagnostics key it shows. *)
Definition RULES : list (string * string) :=
  [("demand_certainty", "demand_certainty");
   ("capacity_reality", "capacity_reality");
   ("earnings_posture", "earnings_posture_rule_result");
   ("confidence", "confidence_level_rule_result")].

Definition rules_fired_of (diag : dict) : list value :=
  map (fun rule => VStr (fst rule ++ ": " ++ py_str (dict_get (snd rule) diag)))
      RULES.

(** The canonical document, written with the vocabulary of the
    specification. *)
Definition v1_document (d : dict) (narr dg : dict) (scenarios : dict)
           (feats : value) : dict :=
  [("schema_version", VStr SCHEMA_V1);
   ("business_id", business_id_chain d);
   ("window_weeks", dict_get_or "window_weeks" (VInt 8) d);
   ("posture", posture_chain d);
   ("confidence", confidence_chain d);
   ("headline",
     VStr (headline_of (posture_chain d) (dict_get "capacity_reality" dg)));
   ("signals",
     VDict [("demand", section_of "demand" d);
            ("capacity", section_of "capacity" d);
            ("risk", section_of "risk" d)]);
   ("scenarios", VDict scenarios);
   ("narrative",
     VDict [("summary", summary_chain d); ("drivers", VList (drivers_of narr))]);
   ("explainability", VDict [("features", feats)]);
   ("diagnostics",
     VDict [("rules_fired", VList (rules_fired_of dg)); ("flags", empty_dict)])].

(** The keys of the bundle that the adapter reads. *)
Definition BUNDLE_KEYS : list string :=
  ["demand"; "capacity"; "risk"; "narrative"; "scenarios"; "business_id";
   "features"; "window_weeks"].

(** A feature value: a boolean or a float. *)
Definition is_feature_value (v : value) : bool :=
  match v with
  | VBool _ | VFloat _ => true
  | _ => false
  end.

Definition is_bool (v : value) : bool :=
  match v with VBool _ => true | _ => false end.

Definition is_float (v : value) : bool :=
  match v with VFloat _ => true | _ => false end.

(** An argument of the extraction that is scanned: a non-empty string or a
    non-empty list. *)
Definition is_scanned (L : value) : bool :=
  match items_of L with Some _ => true | None => false end.

(** The keys of a scenario record. *)
Definition SCENARIO_KEYS : list string :=
  ["earnings_direction"; "confidence"; "primary_drivers"; "explanation"].

(* ================================================================== *)
(** ** app/streamlit_app.py: text helpers and the reads of the page *)

Definition ELLIPSIS : string := "…".

(** [short(s, n)]; [clamp(s, n)] has the same body. *)
Definition short (s : value) (n : Z) : result string :=
  s <- attr_strip (py_or s empty_str) ;;
  if (Z.of_nat (String.length s) <=? n)%Z then Ok s
  else Ok (Text.before_last_space (Text.slice_to n s) ++ ELLIPSIS).

Definition clamp (s : value) (n : Z) : result string :=
  s <- attr_strip (py_or s empty_str) ;;
  if (Z.of_nat (String.length s) <=? n)%Z then Ok s
  else Ok (Text.before_last_space (Text.slice_to n s) ++ ELLIPSIS).

(** What the page reads from the canonical document before it renders. *)
Record page : Type := {
  page_posture : value;
  page_confidence : value;
  page_headline : value;
  page_business_id : value;
  page_summary : value;
  page_drivers : value;
  page_scenarios : value;
  page_signals : value;
  page_features : value
}.

(** The assignments under "Top summary", in their order. *)
Definition read_page (out : dict) : result page :=
  let posture := dict_get_or "posture" (VStr "Unknown") out in
  let confidence := dict_get_or "confidence" (VStr "unknown") out in
  let headline := dict_get_or "headline" empty_str out in
  let business_id := dict_get_or "business_id" (VStr EM_DASH) out in
  summary <-
    attr_get_or (py_or (dict_get_or "narrative" empty_dict out) empty_dict)
                "summary" empty_str ;;
  drivers <-
    attr_get_or (py_or (dict_get_or "narrative" empty_dict out) empty_dict)
                "drivers" empty_list ;;
  let drivers := py_or drivers empty_list in
  let scenarios := py_or (dict_get_or "scenarios" empty_dict out) empty_dict in
  let signals := py_or (dict_get_or "signals" empty_dict out) empty_dict in
  features <-
    attr_get_or (py_or (dict_get_or "explainability" empty_dict out) empty_dict)
                "features" empty_dict ;;
  let features := py_or features empty_dict in
  Ok {| page_posture := posture;
        page_confidence := confidence;
        page_headline := headline;
        page_business_id := business_id;
        page_summary := summary;
        page_drivers := drivers;
        page_scenarios := scenarios;
        page_signals := signals;
        page_features := features |}.

(** The elements of a list; a value of another type has none. *)
Definition list_items (v : value) : list value :=
  match v with VList l => l | _ => [] end.

(** The characters of a number token: sign, digit and point. *)
Definition is_num_char (c : ascii) : bool :=
  is_sign c || Text.isdigit c || Text.is_char "."%char c.

(** The five surface forms, in the order they are attempted. *)
Definition SURFACE_FORMS : list regex :=
  (_BOOL_PATTERNS ++ _PATTERNS)%list.

(** *** More sample documents *)

Definition bundle_full : dict :=
  [("business_id", VStr "biz-1");
   ("demand",
     VDict [("assessment", VStr "steady");
            ("key_factors",
              VList [VStr "demand_stability: 0.85";
                     VStr "volatility_flag is false"])]);
   ("narrative",
     VDict [("confidence_level", VStr "high");
            ("future_earnings_profile", VStr "Stable.");
            ("upside_conditions", VList [VStr "A"; VStr "C"]);
            ("downside_risks", VList [VStr "B"]);
            ("diagnostics",
              VDict [("earnings_posture_rule_result", VStr "Strong")])]);
   ("scenarios",
     VDict [("scenarios",
              VList [VDict [("scenario", VStr " Base ");
                            ("earnings_direction", VNone)];
                     VInt 1])])].

(** [bundle_strong] with a key the adapter does not know, put first. *)
Definition bundle_strong_noted : dict :=
  ("note", VStr "draft") :: bundle_strong.

(** [[{"scenario": 5}]] *)
Definition scenarios_numeric_name : value :=
  VList [VDict [("scenario", VInt 5)]].

(** [{"schema_version": "eff_assessment_v1", "narrative": "text"}] *)
Definition doc_text_narrative : dict :=
  [("schema_version", VStr "eff_assessment_v1"); ("narrative", VStr "text")].

End Python.

(* ================================================================== *)
(** ** A model of [float] for evaluation

    Floats as exact decimals [mant / 10^scale], kept normalised.  It reads
    the plain decimal tokens that the adapter's patterns capture and
    prints them in positional notation; it coincides with Python wherever
    binary rounding and exponent notation play no part. *)

Module Decimal.

Record t : Type := make { mant : Z; scale : nat }.

Fixpoint normalise (fuel : nat) (m : Z) (k : nat) : t :=
  match fuel, k with
  | S fuel', S k' =>
      if (m mod 10 =? 0)%Z then normalise fuel' (m / 10)%Z k' else make m k
  | _, _ => make m k
  end.

Fixpoint digits (acc : Z) (s : string) : option Z :=
  match s with
  | EmptyString => Some acc
  | String c s' =>
      if Text.isdigit c
      then digits (acc * 10 + Z.of_nat (Text.code c - 48))%Z s'
      else None
  end.

Fixpoint split_dot (s : string) : string * option string :=
  match s with
  | EmptyString => (EmptyString, None)
  | String c s' =>
      if Text.is_char "."%char c then (EmptyString, Some s')
      else let (a, b) := split_dot s' in (String c a, b)
  end.

Definition unsigned (s : string) : option t :=
  match split_dot s with
  | (EmptyString, None) => None
  | (i, None) =>
      match digits 0 i with
      | Some m => Some (make m 0)
      | None => None
      end
  | (EmptyString, Some EmptyString) => None
  | (i, Some f) =>
      match digits 0 (i ++ f) with
      | Some m => Some (normalise (String.length f) m (String.length f))
      | None => None
      end
  end.

Definition of_str (s : string) : option t :=
  match s with
  | String "-" s' =>
      match unsigned s' with
      | Some d => Some (make (- mant d) (scale d))
      | None => None
      end
  | String "+" s' => unsigned s'
  | _ => unsigned s
  end.

Fixpoint zeros (n : nat) : string :=
  match n with
  | O => EmptyString
  | S n' => String "0" (zeros n')
  end.

Definition to_str (d : t) : string :=
  let ds := Text.of_Z (Z.abs (mant d)) in
  let ds := zeros (S (scale d) - String.length ds) ++ ds in
  let n := String.length ds - scale d in
  let frac := Text.drop n ds in
  (if (mant d <? 0)%Z then "-" else EmptyString)
  ++ substring 0 n ds ++ "."
  ++ (if Text.is_empty frac then "0" else frac).

Definition nonzero (d : t) : bool := negb (mant d =? 0)%Z.

End Decimal.

Definition decimal_float : PyFloat :=
  {| float := Decimal.t;
     float_truthy := Decimal.nonzero;
     float_of_str := Decimal.of_str;
     float_str := Decimal.to_str |}.

(* ================================================================== *)
(** * Properties *)

(** ** The exception monad *)

Lemma bind_Ok_inv {A B : Type} (m : result A) (f : A -> result B) (b : B) :
  bind m f = Ok b -> exists a, m = Ok a /\ f a = Ok b.
Proof.
  destruct m as [a | e]; simpl; intros Hb.
  - exists a. split; [reflexivity | exact Hb].
  - discriminate Hb.
Qed.

Lemma bind_returns {A B : Type} (m : result A) (f : A -> result B) :
  returns m = true ->
  (forall a, m = Ok a -> returns (f a) = true) ->
  returns (bind m f) = true.
Proof.
  destruct m as [a | e]; simpl; intros Hm Hf.
  - apply Hf. reflexivity.
  - discriminate Hm.
Qed.

Lemma returns_Ok {A : Type} (m : result A) :
  returns m = true -> exists a, m = Ok a.
Proof.
  destruct m as [a | e]; simpl; intros Hm.
  - exists a. reflexivity.
  - discriminate Hm.
Qed.

Lemma foldM_app {A B : Type} (f : A -> B -> result A) (l1 l2 : list B) :
  forall acc,
    foldM f acc (l1 ++ l2)%list = (acc' <- foldM f acc l1 ;; foldM f acc' l2).
Proof.
  induction l1 as [| x l1 IH]; intros acc; simpl.
  - reflexivity.
  - destruct (f acc x) as [acc1 | e]; simpl.
    + apply IH.
    + reflexivity.
Qed.

(** A loop whose body never raises is a plain fold. *)
Lemma foldM_pure {A B : Type} (f : A -> B -> result A) (g : A -> B -> A)
      (l : list B) :
  (forall acc x, In x l -> f acc x = Ok (g acc x)) ->
  forall acc, foldM f acc l = Ok (fold_left g l acc).
Proof.
  induction l as [| x l IH]; intros Hf acc; simpl.
  - reflexivity.
  - rewrite Hf by (left; reflexivity). simpl.
    apply IH. intros acc' y Hy. apply Hf. right. exact Hy.
Qed.

(** ** Insertion-ordered maps *)

Section AssocFacts.
Context {A : Type}.
Implicit Types (d l : list (string * A)).

Lemma assoc_get_set (k k' : string) (v : A) d :
  assoc_get k (assoc_set k' v d)
  = if String.eqb k k' then Some v else assoc_get k d.
Proof.
  induction d as [| [k0 v0] d IH]; simpl.
  - destruct (String.eqb k k'); reflexivity.
  - destruct (String.eqb k' k0) eqn:E0; simpl.
    + apply String.eqb_eq in E0. subst k0.
      destruct (String.eqb k k'); reflexivity.
    + destruct (String.eqb k k0) eqn:E1.
      * apply String.eqb_eq in E1. subst k0.
        rewrite String.eqb_sym, E0. reflexivity.
      * exact IH.
Qed.

Lemma assign_all_app l1 l2 d :
  assign_all (l1 ++ l2)%list d = assign_all l2 (assign_all l1 d).
Proof. unfold assign_all. apply fold_left_app. Qed.

(** After a run of assignments a key holds what was assigned to it
    last, and what it held before if nothing was. *)
Lemma assoc_get_assign_all (k : string) l :
  forall d,
    assoc_get k (assign_all l d)
    = match last_assigned k l with
      | Some v => Some v
      | None => assoc_get k d
      end.
Proof.
  induction l as [| [k' v] l IH]; intros d; simpl.
  - reflexivity.
  - unfold assign_all in *. simpl. rewrite IH.
    destruct (last_assigned k l) as [w |]; [reflexivity |].
    rewrite assoc_get_set. destruct (String.eqb k k'); reflexivity.
Qed.

Lemma last_assigned_app (k : string) l1 l2 :
  last_assigned k (l1 ++ l2)%list
  = match last_assigned k l2 with
    | Some v => Some v
    | None => last_assigned k l1
    end.
Proof.
  induction l1 as [| [k' v] l1 IH]; simpl.
  - destruct (last_assigned k l2); reflexivity.
  - rewrite IH. destruct (last_assigned k l2); reflexivity.
Qed.

Lemma assoc_set_In (k k' : string) (v v' : A) d :
  In (k, v) (assoc_set k' v' d) -> (k, v) = (k', v') \/ In (k, v) d.
Proof.
  induction d as [| [k0 v0] d IH]; simpl.
  - intros [H | []]. left. symmetry. exact H.
  - destruct (String.eqb k' k0); simpl.
    + intros [H | H]; [left; symmetry; exact H | right; right; exact H].
    + intros [H | H]; [right; left; exact H |].
      destruct (IH H) as [E | E]; [left; exact E | right; right; exact E].
Qed.

Lemma assoc_set_key_In (k k' : string) (v' : A) d :
  In k (map fst (assoc_set k' v' d)) <-> k = k' \/ In k (map fst d).
Proof.
  induction d as [| [k0 v0] d IH]; simpl.
  - split; [intros [H | []]; left; symmetry; exact H |].
    intros [H | []]. left. symmetry. exact H.
  - destruct (String.eqb k' k0) eqn:E; simpl.
    + apply String.eqb_eq in E. subst k0. intuition congruence.
    + rewrite IH. tauto.
Qed.

Lemma assoc_set_NoDup (k : string) (v : A) d :
  NoDup (map fst d) -> NoDup (map fst (assoc_set k v d)).
Proof.
  induction d as [| [k0 v0] d IH]; simpl; intros H.
  - constructor; [intros [] | constructor].
  - inversion H as [| x l Hx Hl]; subst.
    destruct (String.eqb k k0) eqn:E; simpl.
    + apply String.eqb_eq in E. subst k0. constructor; assumption.
    + constructor; [| apply IH, Hl].
      rewrite assoc_set_key_In. intros [E' | E']; [| contradiction].
      subst k0. rewrite String.eqb_refl in E. discriminate E.
Qed.

Lemma assoc_set_length (k : string) (v : A) d :
  length (assoc_set k v d) <= S (length d).
Proof.
  induction d as [| [k0 v0] d IH]; simpl; [apply Nat.le_refl |].
  destruct (String.eqb k k0); simpl; lia.
Qed.

(** A run of assignments keeps the keys distinct, stores nothing that was
    not assigned, and grows the map by at most one entry each. *)
Lemma assign_all_NoDup l :
  forall d, NoDup (map fst d) -> NoDup (map fst (assign_all l d)).
Proof.
  unfold assign_all.
  induction l as [| [k v] l IH]; intros d H; simpl; [exact H |].
  apply IH, assoc_set_NoDup, H.
Qed.

Lemma assign_all_In (k : string) (v : A) l :
  forall d, In (k, v) (assign_all l d) -> In (k, v) l \/ In (k, v) d.
Proof.
  unfold assign_all.
  induction l as [| [k' v'] l IH]; intros d H; simpl in *; [right; exact H |].
  destruct (IH _ H) as [E | E]; [left; right; exact E |].
  apply assoc_set_In in E. destruct E as [E | E]; [left; left | right];
    [symmetry |]; exact E.
Qed.

Lemma assign_all_length l :
  forall d, length (assign_all l d) <= length d + length l.
Proof.
  unfold assign_all.
  induction l as [| [k v] l IH]; intros d; simpl; [lia |].
  specialize (IH (assoc_set k v d)).
  pose proof (assoc_set_length k v d). lia.
Qed.

End AssocFacts.


(** ** Characters and trimming *)

Module TextFacts.
Import Text.

Lemma isspace_lower_char (c : ascii) : isspace (lower_char c) = isspace c.
Proof. destruct c as [[] [] [] [] [] [] [] []]; reflexivity. Qed.

Lemma lower_char_idem (c : ascii) : lower_char (lower_char c) = lower_char c.
Proof. destruct c as [[] [] [] [] [] [] [] []]; reflexivity. Qed.

Lemma lower_idem (s : string) : lower (lower s) = lower s.
Proof.
  induction s as [| c s IH]; simpl; [reflexivity |].
  rewrite lower_char_idem, IH. reflexivity.
Qed.

Lemma lower_empty (s : string) : is_empty (lower s) = is_empty s.
Proof. destruct s; reflexivity. Qed.

Lemma lstrip_lower (s : string) : lstrip (lower s) = lower (lstrip s).
Proof.
  induction s as [| c s IH]; simpl; [reflexivity |].
  rewrite isspace_lower_char. destruct (isspace c); [exact IH | reflexivity].
Qed.

Lemma rstrip_lower (s : string) : rstrip (lower s) = lower (rstrip s).
Proof.
  induction s as [| c s IH]; simpl; [reflexivity |].
  rewrite IH, isspace_lower_char.
  destruct (rstrip s) as [| c' r]; simpl; [destruct (isspace c) |]; reflexivity.
Qed.

Lemma strip_lower (s : string) : strip (lower s) = lower (strip s).
Proof. unfold strip. rewrite lstrip_lower, rstrip_lower. reflexivity. Qed.

(** A text is clean at the head when it does not start with whitespace. *)
Lemma lstrip_head (s : string) :
  match lstrip s with
  | EmptyString => True
  | String c _ => isspace c = false
  end.
Proof.
  induction s as [| c s IH]; simpl; [exact I |].
  destruct (isspace c) eqn:E; [exact IH | exact E].
Qed.

Lemma lstrip_clean (s : string) :
  match s with
  | EmptyString => True
  | String c _ => isspace c = false
  end ->
  lstrip s = s.
Proof.
  destruct s as [| c s]; simpl; [reflexivity |]. intros ->. reflexivity.
Qed.

Lemma rstrip_idem (s : string) : rstrip (rstrip s) = rstrip s.
Proof.
  induction s as [| c s IH]; simpl; [reflexivity |].
  destruct (rstrip s) as [| c' r] eqn:E.
  - destruct (isspace c) eqn:Ec; simpl; [reflexivity |]. rewrite Ec. reflexivity.
  - simpl in IH |- *. rewrite IH. reflexivity.
Qed.

Lemma rstrip_head (s : string) :
  match s with
  | EmptyString => True
  | String c _ => isspace c = false
  end ->
  match rstrip s with
  | EmptyString => True
  | String c _ => isspace c = false
  end.
Proof.
  destruct s as [| c s]; simpl; [trivial |]. intros Hc.
  destruct (rstrip s); [rewrite Hc |]; exact Hc.
Qed.

(** Trimming a trimmed text changes nothing. *)
Lemma strip_idem (s : string) : strip (strip s) = strip s.
Proof.
  unfold strip.
  rewrite (lstrip_clean (rstrip (lstrip s)))
    by (apply rstrip_head, lstrip_head).
  apply rstrip_idem.
Qed.

(** A run of characters none of which is whitespace is already trimmed. *)
Lemma strip_no_space (s : string) :
  all_chars (fun c => negb (isspace c)) s = true -> strip s = s.
Proof.
  intros H. unfold strip.
  assert (Hl : lstrip s = s).
  { destruct s as [| c s]; [reflexivity |]. simpl in H |- *.
    apply andb_true_iff in H. destruct H as [Hc _].
    apply negb_true_iff in Hc. rewrite Hc. reflexivity. }
  rewrite Hl. clear Hl.
  induction s as [| c s IH]; simpl; [reflexivity |].
  simpl in H. apply andb_true_iff in H. destruct H as [Hc Hs].
  rewrite (IH Hs). apply negb_true_iff in Hc.
  destruct s; [rewrite Hc |]; reflexivity.
Qed.

Lemma replace_char_absent (a b : ascii) (s : string) :
  all_chars (fun c => negb (Ascii.eqb c a)) s = true ->
  replace_char a b s = s.
Proof.
  induction s as [| c s IH]; simpl; [reflexivity |]. intros H.
  apply andb_true_iff in H. destruct H as [Hc Hs].
  apply negb_true_iff in Hc. rewrite Hc, (IH Hs). reflexivity.
Qed.

Lemma all_chars_impl (p q : ascii -> bool) (s : string) :
  (forall c, p c = true -> q c = true) ->
  all_chars p s = true -> all_chars q s = true.
Proof.
  intros Hpq. induction s as [| c s IH]; simpl; [reflexivity |]. intros H.
  apply andb_true_iff in H. destruct H as [Hc Hs].
  rewrite (Hpq c Hc), (IH Hs). reflexivity.
Qed.

Lemma replace_char_clean (a b : ascii) (s : string) :
  Ascii.eqb b a = false ->
  all_chars (fun c => negb (Ascii.eqb c a)) (replace_char a b s) = true.
Proof.
  intros Hab. induction s as [| c s IH]; simpl; [reflexivity |].
  rewrite IH. destruct (Ascii.eqb c a) eqn:E; [rewrite Hab | rewrite E];
    reflexivity.
Qed.

Lemma substring_split (n : nat) (s : string) :
  exists rest,
    s = (substring 0 n s ++ rest)%string
    /\ String.length (substring 0 n s) <= n.
Proof.
  revert s. induction n as [| n IH]; intros s.
  - exists s. destruct s; simpl; split; auto.
  - destruct s as [| c s]; simpl.
    + exists EmptyString. split; [reflexivity | apply Nat.le_0_l].
    + destruct (IH s) as (rest & E & L). exists rest.
      split; [rewrite <- E; reflexivity | apply le_n_S, L].
Qed.

(** The text before the last space, and the spaceless word after it. *)
Lemma rsplit_space_none (s : string) :
  rsplit_space s = None ->
  all_chars (fun c => negb (is_char " "%char c)) s = true.
Proof.
  induction s as [| c s IH]; cbn [rsplit_space all_chars]; [reflexivity |].
  destruct (rsplit_space s); [discriminate |].
  destruct (is_char " " c); [discriminate |]. intros _. apply IH. reflexivity.
Qed.

Lemma rsplit_space_some (s p : string) :
  rsplit_space s = Some p ->
  exists w,
    s = (p ++ String " " w)%string
    /\ all_chars (fun c => negb (is_char " "%char c)) w = true.
Proof.
  revert p. induction s as [| c s IH]; intros p; cbn [rsplit_space];
    [discriminate |].
  destruct (rsplit_space s) as [q |] eqn:E.
  - intros H. inversion H; subst p. destruct (IH q eq_refl) as (w & -> & Hw).
    exists w. split; [reflexivity | exact Hw].
  - destruct (is_char " " c) eqn:Ec; [| discriminate].
    intros H. inversion H; subst p. exists s.
    unfold is_char in Ec. apply Ascii.eqb_eq in Ec. subst c.
    split; [reflexivity | apply rsplit_space_none, E].
Qed.

Lemma append_length (a b : string) :
  String.length (a ++ b) = String.length a + String.length b.
Proof.
  induction a as [| x a IH]; simpl; [reflexivity | rewrite IH; reflexivity].
Qed.

Lemma append_assoc (a b c : string) : ((a ++ b) ++ c = a ++ (b ++ c))%string.
Proof.
  induction a as [| x a IH]; simpl; [reflexivity | rewrite IH; reflexivity].
Qed.

End TextFacts.

(** ** The matcher *)

Module RegexFacts.
Import Regex.

Lemma star_match_inv {A : Type} (p : ascii -> bool) (k : string -> option A)
      (a : A) :
  forall s, star_match p s k = Some a -> exists s', k s' = Some a.
Proof.
  induction s as [| c s IH]; simpl; intros H.
  - exists EmptyString. exact H.
  - destruct (p c).
    + destruct (star_match p s k) as [a' |] eqn:E.
      * inversion H; subst a'. apply IH. reflexivity.
      * exists (String c s). exact H.
    + exists (String c s). exact H.
Qed.

Lemma keeps_refl (c : captures) : keeps c c.
Proof. intros g H. exact H. Qed.

Lemma keeps_trans (c1 c2 c3 : captures) :
  keeps c1 c2 -> keeps c2 c3 -> keeps c1 c3.
Proof. intros H12 H23 g H. apply H23, H12, H. Qed.

Lemma keeps_set (g : string) (t : string) (c : captures) :
  keeps c (assoc_set g t c).
Proof.
  intros g' H. rewrite assoc_get_set.
  destruct (String.eqb g' g); [discriminate | exact H].
Qed.

(** A successful match hands its continuation captures in which every
    group the pattern always binds is set. *)
Lemma rmatch_inv {A : Type} (r : regex) :
  forall (s : string) (caps : captures)
         (k : string -> captures -> option A) (a : A),
    rmatch r s caps k = Some a ->
    exists s' caps',
      k s' caps' = Some a
      /\ keeps caps caps'
      /\ (forall g, binds g r = true -> assoc_get g caps' <> None).
Proof.
  induction r as [| p | r1 IH1 r2 IH2 | r1 IH1 r2 IH2 | r1 IH1 | p | g0 r1 IH1];
    intros s caps k a H; simpl in H.
  - exists s, caps. repeat split; [exact H | apply keeps_refl |].
    intros g Hg. discriminate Hg.
  - destruct s as [| c s]; [discriminate H |].
    destruct (p c); [| discriminate H].
    exists s, caps. repeat split; [exact H | apply keeps_refl |].
    intros g Hg. discriminate Hg.
  - apply IH1 in H. destruct H as (s1 & c1 & H & K1 & B1).
    apply IH2 in H. destruct H as (s2 & c2 & H & K2 & B2).
    exists s2, c2. repeat split; [exact H | eapply keeps_trans; eassumption |].
    intros g Hg. simpl in Hg. apply orb_true_iff in Hg.
    destruct Hg as [Hg | Hg]; [apply K2, B1, Hg | apply B2, Hg].
  - destruct (rmatch r1 s caps k) as [a' |] eqn:E.
    + inversion H; subst a'. apply IH1 in E.
      destruct E as (s1 & c1 & E & K1 & B1).
      exists s1, c1. repeat split; [exact E | exact K1 |].
      intros g Hg. simpl in Hg. apply andb_true_iff in Hg. apply B1, Hg.
    + apply IH2 in H. destruct H as (s2 & c2 & H & K2 & B2).
      exists s2, c2. repeat split; [exact H | exact K2 |].
      intros g Hg. simpl in Hg. apply andb_true_iff in Hg. apply B2, Hg.
  - destruct (rmatch r1 s caps k) as [a' |] eqn:E.
    + inversion H; subst a'. apply IH1 in E.
      destruct E as (s1 & c1 & E & K1 & _).
      exists s1, c1. repeat split; [exact E | exact K1 |].
      intros g Hg. discriminate Hg.
    + exists s, caps. repeat split; [exact H | apply keeps_refl |].
      intros g Hg. discriminate Hg.
  - apply star_match_inv in H. destruct H as (s' & H).
    exists s', caps. repeat split; [exact H | apply keeps_refl |].
    intros g Hg. discriminate Hg.
  - apply IH1 in H. destruct H as (s1 & c1 & H & K1 & B1).
    exists s1, (assoc_set g0 (consumed s s1) c1).
    repeat split; [exact H | |].
    + eapply keeps_trans; [exact K1 | apply keeps_set].
    + intros g Hg. simpl in Hg. apply orb_true_iff in Hg.
      destruct Hg as [Hg | Hg].
      * apply String.eqb_eq in Hg. subst g0.
        rewrite assoc_get_set, String.eqb_refl. discriminate.
      * apply keeps_set, B1, Hg.
Qed.

Lemma match_here_binds (r : regex) (s : string) (m : captures) (g : string) :
  match_here r s = Some m -> binds g r = true -> assoc_get g m <> None.
Proof.
  unfold match_here. intros H Hg.
  apply rmatch_inv in H. destruct H as (s' & c' & H & _ & B).
  inversion H; subst c'. apply B, Hg.
Qed.

(** [search] finds the match at the leftmost position that has one. *)
Lemma search_leftmost (r : regex) :
  forall (s : string) (m : captures),
    search r s = Some m ->
    exists i,
      i <= String.length s
      /\ match_here r (Text.drop i s) = Some m
      /\ forall j, j < i -> match_here r (Text.drop j s) = None.
Proof.
  induction s as [| c s IH]; intros m H; simpl in H.
  - destruct (match_here r EmptyString) as [m' |] eqn:E; [| discriminate H].
    exists 0. repeat split; [apply Nat.le_refl | simpl; congruence |].
    intros j Hj. inversion Hj.
  - destruct (match_here r (String c s)) as [m' |] eqn:E.
    + exists 0. repeat split; [apply Nat.le_0_l | simpl; congruence |].
      intros j Hj. inversion Hj.
    + apply IH in H. destruct H as (i & Hi & Hm & Hnone).
      exists (S i). repeat split.
      * simpl. apply le_n_S, Hi.
      * exact Hm.
      * intros [| j] Hj; [exact E |].
        simpl. apply Hnone. apply Nat.succ_lt_mono, Hj.
Qed.

Lemma search_none (r : regex) :
  forall (s : string),
    search r s = None ->
    forall i, i <= String.length s -> match_here r (Text.drop i s) = None.
Proof.
  induction s as [| c s IH]; intros H i Hi; simpl in H.
  - destruct (match_here r EmptyString) eqn:E; [discriminate H |].
    destruct i; exact E.
  - destruct (match_here r (String c s)) eqn:E; [discriminate H |].
    destruct i as [| i]; [exact E |].
    simpl. apply IH; [exact H |]. simpl in Hi. apply le_S_n, Hi.
Qed.

Lemma search_binds (r : regex) (g : string) :
  binds g r = true ->
  forall (s : string) (m : captures),
    search r s = Some m -> assoc_get g m <> None.
Proof.
  intros Hg s m H. apply search_leftmost in H.
  destruct H as (i & _ & H & _).
  eapply match_here_binds; eassumption.
Qed.

(** *** What a match consumes and captures *)

Lemma substring_prefix (a b : string) :
  substring 0 (String.length a) (a ++ b) = a.
Proof.
  induction a as [| x a IH]; simpl.
  - destruct b; reflexivity.
  - rewrite IH. reflexivity.
Qed.

Lemma consumed_append (w rest : string) : consumed (w ++ rest) rest = w.
Proof.
  unfold consumed. rewrite TextFacts.append_length.
  replace (String.length w + String.length rest - String.length rest)
    with (String.length w) by lia.
  apply substring_prefix.
Qed.

Lemma star_match_sound {A : Type} (p : ascii -> bool) (k : string -> option A)
      (a : A) :
  forall s,
    star_match p s k = Some a ->
    exists w s',
      s = (w ++ s')%string /\ Lang (RStar p) w /\ k s' = Some a.
Proof.
  induction s as [| c s IH]; simpl; intros H.
  - exists EmptyString, EmptyString. repeat split; [constructor | exact H].
  - destruct (p c) eqn:Pc.
    + destruct (star_match p s k) as [a' |] eqn:E.
      * inversion H; subst a'. destruct (IH eq_refl) as (w & s' & -> & Hw & Hk).
        exists (String c w), s'. repeat split; [constructor; assumption | exact Hk].
      * exists EmptyString, (String c s). repeat split; [constructor | exact H].
    + exists EmptyString, (String c s). repeat split; [constructor | exact H].
Qed.

Lemma captures_in_set (G : list (string * regex)) (g : string) (r : regex)
      (w : string) (caps : captures) :
  In (g, r) G -> Lang r w -> captures_in G caps ->
  captures_in G (assoc_set g w caps).
Proof.
  intros Hin Hw Hc g' t. rewrite assoc_get_set.
  destruct (String.eqb g' g) eqn:E.
  - apply String.eqb_eq in E. subst g'. intros Ht. inversion Ht; subst t.
    exists r. split; assumption.
  - apply Hc.
Qed.

(** A successful match splits the text into what the pattern consumed and
    the rest handed to the continuation, and every group it set holds
    what the group's body consumed. *)
Lemma rmatch_sound {A : Type} (G : list (string * regex)) (r : regex) :
  forall (s : string) (caps : captures)
         (k : string -> captures -> option A) (a : A),
    incl (groups_of r) G ->
    captures_in G caps ->
    rmatch r s caps k = Some a ->
    exists w s' caps',
      s = (w ++ s')%string
      /\ Lang r w
      /\ captures_in G caps'
      /\ k s' caps' = Some a.
Proof.
  induction r as [| p | r1 IH1 r2 IH2 | r1 IH1 r2 IH2 | r1 IH1 | p | g0 r1 IH1];
    intros s caps k a HG Hc H; simpl in H, HG.
  - exists EmptyString, s, caps. repeat split; [constructor | exact Hc | exact H].
  - destruct s as [| c s]; [discriminate H |].
    destruct (p c) eqn:Pc; [| discriminate H].
    exists (String c EmptyString), s, caps.
    repeat split; [constructor; exact Pc | exact Hc | exact H].
  - apply incl_app_inv in HG. destruct HG as [HG1 HG2].
    apply IH1 in H; [| exact HG1 | exact Hc].
    destruct H as (w1 & s1 & c1 & -> & L1 & Hc1 & H).
    apply IH2 in H; [| exact HG2 | exact Hc1].
    destruct H as (w2 & s2 & c2 & -> & L2 & Hc2 & H).
    exists (w1 ++ w2)%string, s2, c2. rewrite TextFacts.append_assoc.
    repeat split; [constructor; assumption | exact Hc2 | exact H].
  - apply incl_app_inv in HG. destruct HG as [HG1 HG2].
    destruct (rmatch r1 s caps k) as [a' |] eqn:E.
    + inversion H; subst a'.
      apply IH1 in E; [| exact HG1 | exact Hc].
      destruct E as (w & s' & c' & -> & L & Hc' & E).
      exists w, s', c'. repeat split; [apply LAltL, L | exact Hc' | exact E].
    + apply IH2 in H; [| exact HG2 | exact Hc].
      destruct H as (w & s' & c' & -> & L & Hc' & H).
      exists w, s', c'. repeat split; [apply LAltR, L | exact Hc' | exact H].
  - destruct (rmatch r1 s caps k) as [a' |] eqn:E.
    + inversion H; subst a'. apply IH1 in E; [| exact HG | exact Hc].
      destruct E as (w & s' & c' & -> & L & Hc' & E).
      exists w, s', c'. repeat split; [constructor; exact L | exact Hc' | exact E].
    + exists EmptyString, s, caps.
      repeat split; [apply LOptNone | exact Hc | exact H].
  - apply star_match_sound in H. destruct H as (w & s' & -> & L & H).
    exists w, s', caps. repeat split; [exact L | exact Hc | exact H].
  - apply IH1 in H;
      [| intros x Hx; apply HG; right; exact Hx | exact Hc].
    destruct H as (w & s' & c' & -> & L & Hc' & H).
    rewrite consumed_append in H.
    exists w, s', (assoc_set g0 w c').
    repeat split; [constructor; exact L | | exact H].
    apply captures_in_set with (r := r1);
      [apply HG; left; reflexivity | exact L | exact Hc'].
Qed.

Lemma match_here_captures (r : regex) (s : string) (m : captures) :
  match_here r s = Some m -> captures_in (groups_of r) m.
Proof.
  unfold match_here. intros H.
  apply (rmatch_sound (groups_of r)) in H;
    [| apply incl_refl | intros g t Ht; discriminate Ht].
  destruct H as (w & s' & c' & _ & _ & Hc & H). inversion H; subst c'. exact Hc.
Qed.

Lemma search_captures (r : regex) (s : string) (m : captures) :
  search r s = Some m -> captures_in (groups_of r) m.
Proof.
  intros H. apply search_leftmost in H. destruct H as (i & _ & H & _).
  eapply match_here_captures, H.
Qed.

(** What the texts of particular patterns look like. *)

Lemma lang_star_chars (p : ascii -> bool) (w : string) :
  Lang (RStar p) w -> Text.all_chars p w = true.
Proof.
  intros H. remember (RStar p) as r eqn:Er.
  induction H; try discriminate Er.
  - reflexivity.
  - inversion Er; subst. simpl. rewrite H. apply IHLang. reflexivity.
Qed.

Lemma lang_plus_chars (p : ascii -> bool) (w : string) :
  Lang (RPlus p) w -> w <> EmptyString /\ Text.all_chars p w = true.
Proof.
  unfold RPlus. intros H. inversion H as [| | r1 r2 w1 w2 H1 H2 | | | | | | |]; subst.
  inversion H1; subst. apply lang_star_chars in H2. simpl.
  split; [discriminate | rewrite H3, H2; reflexivity].
Qed.

Lemma lower_append (a b : string) :
  Text.lower (a ++ b) = (Text.lower a ++ Text.lower b)%string.
Proof.
  induction a as [| x a IH]; simpl; [reflexivity | rewrite IH; reflexivity].
Qed.

Lemma lang_iword (u w : string) : Lang (iword u) w -> Text.lower w = u.
Proof.
  revert w. induction u as [| a u IH]; intros w H; simpl in H.
  - inversion H. reflexivity.
  - inversion H as [| | r1 r2 w1 w2 H1 H2 | | | | | | |]; subst.
    unfold ichar in H1. inversion H1; subst.
    apply Ascii.eqb_eq in H3. simpl. rewrite H3, (IH _ H2). reflexivity.
Qed.

Lemma all_chars_app (p : ascii -> bool) (a b : string) :
  Text.all_chars p (a ++ b) = Text.all_chars p a && Text.all_chars p b.
Proof.
  induction a as [| x a IH]; simpl; [reflexivity |].
  rewrite IH, andb_assoc. reflexivity.
Qed.

Lemma lang_within (P : ascii -> bool) (r : regex) (w : string) :
  Lang r w -> within P r -> Text.all_chars P w = true.
Proof.
  induction 1 as [| p c Hc | r1 r2 w1 w2 _ IH1 _ IH2 | r1 r2 w _ IH
                  | r1 r2 w _ IH | r w _ IH | r | p | p c w Hc _ IH
                  | g r w _ IH]; simpl; intros HP.
  - reflexivity.
  - rewrite (HP c Hc). reflexivity.
  - rewrite all_chars_app, (IH1 (proj1 HP)), (IH2 (proj2 HP)). reflexivity.
  - apply IH, HP.
  - apply IH, HP.
  - apply IH, HP.
  - reflexivity.
  - reflexivity.
  - rewrite (HP c Hc). apply IH. exact HP.
  - apply IH, HP.
Qed.

Lemma lang_seq_inv (r1 r2 : regex) (w : string) :
  Lang (RSeq r1 r2) w ->
  exists w1 w2, w = (w1 ++ w2)%string /\ Lang r1 w1 /\ Lang r2 w2.
Proof.
  intros H. inversion H; subst. eexists _, _. repeat split; eassumption.
Qed.

Lemma append_nonempty_r (a b : string) :
  b <> EmptyString -> (a ++ b)%string <> EmptyString.
Proof.
  destruct a; simpl; [trivial | discriminate].
Qed.

End RegexFacts.

(* ================================================================== *)
(** ** The adapter *)

Section AdapterFacts.
Context {PF : PyFloat}.
Import Regex.

Ltac bind_inv H :=
  let a := fresh "a" in
  let Ha := fresh "Ha" in
  apply bind_Ok_inv in H; destruct H as (a & Ha & H).

(** *** Free-text feature extraction *)

Lemma scan_pattern_hit (p : regex) :
  binds "k" p = true -> binds "v" p = true ->
  forall (s : string) (feats : dict),
    scan_pattern s feats p = Ok (assign_all (pattern_hit s p) feats).
Proof.
  intros Bk Bv s feats. unfold scan_pattern, pattern_hit.
  destruct (search p s) as [m |] eqn:E; [| reflexivity].
  pose proof (RegexFacts.search_binds p "k" Bk s m E) as Hk.
  pose proof (RegexFacts.search_binds p "v" Bv s m E) as Hv.
  unfold group.
  destruct (assoc_get "k" m) as [k |]; [| contradiction Hk; reflexivity].
  destruct (assoc_get "v" m) as [v |]; [| contradiction Hv; reflexivity].
  simpl. unfold _try_add.
  destruct (feature_entry k v) as [[k' x] |]; reflexivity.
Qed.

Lemma scan_item_hits (feats : dict) (s : string) :
  scan_item feats s = Ok (assign_all (item_hits s) feats).
Proof.
  unfold scan_item, item_hits, _BOOL_PATTERNS, _PATTERNS.
  cbn [foldM flat_map].
  repeat (rewrite scan_pattern_hit by reflexivity; cbn [bind]).
  rewrite !assign_all_app. reflexivity.
Qed.

Lemma scan_items_hits (items : list string) :
  forall feats,
    foldM scan_item feats items = Ok (assign_all (flat_map item_hits items) feats).
Proof.
  induction items as [| s items IH]; intros feats; cbn [foldM flat_map].
  - reflexivity.
  - rewrite scan_item_hits. cbn [bind]. rewrite IH, assign_all_app. reflexivity.
Qed.

Lemma scan_list_hits (feats : dict) (L : value) :
  scan_list feats L = Ok (assign_all (list_hits L) feats).
Proof.
  unfold scan_list, list_hits.
  destruct (items_of L) as [items |]; [apply scan_items_hits | reflexivity].
Qed.

Lemma scan_lists_hits (lists : list value) :
  forall feats,
    foldM scan_list feats lists = Ok (assign_all (all_hits lists) feats).
Proof.
  unfold all_hits.
  induction lists as [| L lists IH]; intros feats; cbn [foldM flat_map].
  - reflexivity.
  - rewrite scan_list_hits. cbn [bind]. rewrite IH, assign_all_app. reflexivity.
Qed.

(** The extraction never raises: it is the run of all hits, in order. *)
Lemma extract_hits (lists : list value) :
  _extract_features_from_text_lists lists = Ok (assign_all (all_hits lists) []).
Proof. apply scan_lists_hits. Qed.

(** *** Scenario conversion *)

Lemma attr_strip_Ok_inv (v : value) (t : string) :
  attr_strip v = Ok t -> exists s, v = VStr s /\ t = Text.strip s.
Proof.
  destruct v; simpl; intros H; try discriminate H.
  inversion H. eexists. split; reflexivity.
Qed.

Lemma scenario_step_entry (out : dict) (s : value) (r : dict) :
  scenario_step out s = Ok r -> r = assign_all (scenario_entry s) out.
Proof.
  destruct s as [| b | n | x | t | l | rec]; simpl; intros H;
    try (inversion H; reflexivity).
  bind_inv H. apply attr_strip_Ok_inv in Ha. destruct Ha as (s0 & Hs & ->).
  unfold scenario_name. rewrite Hs.
  destruct (Text.is_empty (Text.lower (Text.strip s0)));
    inversion H; reflexivity.
Qed.

Lemma scenario_steps_entries (l : list value) :
  forall out0 out,
    foldM scenario_step out0 l = Ok out ->
    out = assign_all (scenario_entries l) out0.
Proof.
  unfold scenario_entries.
  induction l as [| s l IH]; intros out0 out H; cbn [foldM flat_map] in *.
  - inversion H. reflexivity.
  - bind_inv H. apply scenario_step_entry in Ha. subst a.
    rewrite assign_all_app. apply IH, H.
Qed.

(** A record raises exactly when its name is a truthy value that is not a
    string. *)
Lemma scenario_step_returns (out : dict) (s : value) :
  returns (scenario_step out s) = scenario_ok s.
Proof.
  destruct s as [| b | n | x | t | l | rec]; try reflexivity.
  unfold scenario_step, scenario_ok, py_or.
  destruct (truthy (dict_get "scenario" rec)) eqn:T; simpl.
  - destruct (dict_get "scenario" rec); simpl; try reflexivity.
    destruct (Text.is_empty _); reflexivity.
  - reflexivity.
Qed.

Lemma scenario_steps_return (l : list value) :
  forall out, returns (foldM scenario_step out l) = forallb scenario_ok l.
Proof.
  induction l as [| s l IH]; intros out; cbn [foldM forallb].
  - reflexivity.
  - rewrite <- (scenario_step_returns out s).
    destruct (scenario_step out s) as [out' | e]; simpl.
    + apply IH.
    + reflexivity.
Qed.

Lemma scenarios_list_returns (v : value) :
  returns (_scenarios_list_to_dict v) = scenario_list_ok v.
Proof.
  destruct v; try reflexivity. apply scenario_steps_return.
Qed.

(** One record with a string for a name: keyed by the lower-cased trimmed
    name, and dropped when that is empty. *)
Lemma scenario_step_named (out rec : dict) (s : string) :
  dict_get "scenario" rec = VStr s ->
  scenario_step out (VDict rec)
  = Ok (if Text.is_empty (Text.lower (Text.strip s)) then out
        else assoc_set (Text.lower (Text.strip s)) (scenario_record rec) out).
Proof.
  intros H. unfold scenario_step, py_or. rewrite H.
  destruct s as [| c s]; [reflexivity |].
  cbn [truthy Text.is_empty negb attr_strip bind].
  destruct (Text.is_empty (Text.lower (Text.strip (String c s)))); reflexivity.
Qed.

(** Entries that are not mappings leave no trace. *)
Lemma scenario_steps_skip (l : list value) :
  forall out,
    foldM scenario_step out l = foldM scenario_step out (filter is_dict l).
Proof.
  induction l as [| s l IH]; intros out; [reflexivity |].
  destruct s as [| b | n | x | t | items | rec];
    try (cbn [filter is_dict foldM scenario_step bind]; apply IH).
  cbn [filter is_dict foldM].
  destruct (scenario_step out (VDict rec)) as [out' | e]; cbn [bind];
    [apply IH | reflexivity].
Qed.

(** *** Reading the bundle *)

Lemma attr_get_or_Ok_inv (obj : value) (k : string) (dflt v : value) :
  attr_get_or obj k dflt = Ok v ->
  exists m, obj = VDict m /\ v = dict_get_or k dflt m.
Proof.
  destruct obj; simpl; intros H; try discriminate H.
  inversion H. eexists. split; reflexivity.
Qed.

Lemma attr_get_Ok_inv (obj : value) (k : string) (v : value) :
  attr_get obj k = Ok v -> exists m, obj = VDict m /\ v = dict_get k m.
Proof. apply attr_get_or_Ok_inv. Qed.

Lemma or_else_Ok_inv (a b : result value) (v : value) :
  or_else a b = Ok v ->
  exists x, a = Ok x
            /\ ((truthy x = true /\ v = x) \/ (truthy x = false /\ b = Ok v)).
Proof.
  unfold or_else. intros H. bind_inv H. exists a0. split; [exact Ha |].
  destruct (truthy a0); [left | right]; split; try reflexivity.
  - inversion H. reflexivity.
  - exact H.
Qed.

Lemma first_truthy_here (v : value) (rest : list value) (dflt : value) :
  truthy v = true -> first_truthy (v :: rest) dflt = v.
Proof. unfold first_truthy. simpl. intros ->. reflexivity. Qed.

Lemma first_truthy_next (v : value) (rest : list value) (dflt : value) :
  truthy v = false -> first_truthy (v :: rest) dflt = first_truthy rest dflt.
Proof. unfold first_truthy. simpl. intros ->. reflexivity. Qed.

(** The [business_id] expression is the fallback chain. *)
Lemma business_id_expr (d : dict) (b : value) :
  or_else (Ok (dict_get "business_id" d))
    (or_else (attr_get (section_of "scenarios" d) "business_id")
       (or_else (attr_get (section_of "narrative" d) "business_id")
          (or_else (attr_get (section_of "demand" d) "business_id")
             (Ok (VStr EM_DASH))))) = Ok b ->
  b = business_id_chain d.
Proof.
  unfold business_id_chain. intros H.
  apply or_else_Ok_inv in H. destruct H as (x1 & E1 & [[T1 ->] | [T1 H]]);
    inversion E1; subst x1.
  { rewrite first_truthy_here by exact T1. reflexivity. }
  rewrite first_truthy_next by exact T1.
  apply or_else_Ok_inv in H. destruct H as (x2 & E2 & H).
  apply attr_get_Ok_inv in E2. destruct E2 as (m2 & -> & ->). cbn [entries_of].
  destruct H as [[T2 ->] | [T2 H]].
  { rewrite first_truthy_here by exact T2. reflexivity. }
  rewrite first_truthy_next by exact T2.
  apply or_else_Ok_inv in H. destruct H as (x3 & E3 & H).
  apply attr_get_Ok_inv in E3. destruct E3 as (m3 & -> & ->). cbn [entries_of].
  destruct H as [[T3 ->] | [T3 H]].
  { rewrite first_truthy_here by exact T3. reflexivity. }
  rewrite first_truthy_next by exact T3.
  apply or_else_Ok_inv in H. destruct H as (x4 & E4 & H).
  apply attr_get_Ok_inv in E4. destruct E4 as (m4 & -> & ->). cbn [entries_of].
  destruct H as [[T4 ->] | [T4 H]].
  { rewrite first_truthy_here by exact T4. reflexivity. }
  rewrite first_truthy_next by exact T4.
  inversion H. reflexivity.
Qed.

(** Every successful run of the adapter, field by field. *)
Lemma adapt_Ok_inv (d out : dict) :
  adapt_internal_bundle_to_v1 d = Ok out ->
  exists scen narr dg posture confidence summary drivers scenarios feats rules,
    section_of "scenarios" d = VDict scen
    /\ section_of "narrative" d = VDict narr
    /\ diagnostics_of d = VDict dg
    /\ features_from d feats
    /\ (exists drivers0,
          add_driver (VDict narr) "upside_conditions" "Upside conditions: " []
          = Ok drivers0
          /\ add_driver (VDict narr) "downside_risks" "Downside risks: " drivers0
             = Ok drivers)
    /\ _scenarios_list_to_dict (dict_get_or "scenarios" empty_list scen)
       = Ok scenarios
    /\ out =
       [("schema_version", VStr SCHEMA_V1);
        ("business_id", business_id_chain d);
        ("window_weeks", dict_get_or "window_weeks" (VInt 8) d);
        ("posture", posture);
        ("confidence", confidence);
        ("headline",
          VStr (headline_of posture (dict_get "capacity_reality" dg)));
        ("signals",
          VDict [("demand", section_of "demand" d);
                 ("capacity", section_of "capacity" d);
                 ("risk", section_of "risk" d)]);
        ("scenarios", VDict scenarios);
        ("narrative",
          VDict [("summary", summary); ("drivers", VList drivers)]);
        ("explainability", VDict [("features", feats)]);
        ("diagnostics",
          VDict [("rules_fired", VList rules); ("flags", empty_dict)])].
Proof.
  unfold adapt_internal_bundle_to_v1. cbv zeta.
  fold (section_of "demand" d) (section_of "capacity" d) (section_of "risk" d)
       (section_of "narrative" d) (section_of "scenarios" d).
  intros H.
  bind_inv H. rename a into business_id. apply business_id_expr in Ha.
  subst business_id.
  bind_inv H. rename a into diag, Ha into Hdiag.
  bind_inv H. rename a into posture, Ha into Hposture.
  bind_inv H. rename a into confidence, Ha into Hconf.
  bind_inv H. rename a into cap, Ha into Hcap.
  bind_inv H. rename a into summary, Ha into Hsummary.
  bind_inv H. rename a into drivers0, Ha into Hd0.
  bind_inv H. rename a into drivers, Ha into Hd1.
  bind_inv H. rename a into slist, Ha into Hslist.
  bind_inv H. rename a into scenarios, Ha into Hscen.
  bind_inv H. rename a into feats, Ha into Hfeats.
  bind_inv H. rename a into r1, Ha into Hr1.
  bind_inv H. rename a into r2, Ha into Hr2.
  bind_inv H. rename a into r3, Ha into Hr3.
  bind_inv H. rename a into r4, Ha into Hr4.
  (* the sections that are always read are mappings *)
  apply attr_get_or_Ok_inv in Hslist. destruct Hslist as (scen & Escen & ->).
  apply or_else_Ok_inv in Hconf. destruct Hconf as (c0 & Hc0 & _).
  apply attr_get_Ok_inv in Hc0. destruct Hc0 as (narr & Enarr & ->).
  apply attr_get_Ok_inv in Hcap. destruct Hcap as (dg & Edg & Ecap).
  subst diag cap.
  assert (Hdg : diagnostics_of d = VDict dg).
  { unfold diagnostics_of. rewrite Enarr in *. simpl in Hdiag.
    unfold dict_get. congruence. }
  rewrite Enarr in Hd0, Hd1.
  exists scen, narr, dg, posture, confidence, summary, drivers, scenarios, feats.
  eexists.
  split; [exact Escen |]. split; [exact Enarr |]. split; [exact Hdg |].
  split; [| split; [exists drivers0; split; [exact Hd0 | exact Hd1] |
                    split; [exact Hscen | inversion H; reflexivity]]].
  unfold features_from, has_features.
  destruct (is_dict (dict_get "features" d)) eqn:Tf;
    destruct (truthy (dict_get "features" d)) eqn:Nf; simpl in Hfeats |- *;
    try (left; split; [reflexivity | inversion Hfeats; reflexivity]);
    right;
    bind_inv Hfeats; apply attr_get_Ok_inv in Ha; destruct Ha as (md & Ed & ->);
    bind_inv Hfeats; apply attr_get_Ok_inv in Ha; destruct Ha as (mc & Ec & ->);
    bind_inv Hfeats; apply attr_get_Ok_inv in Ha; destruct Ha as (mr & Er & ->);
    bind_inv Hfeats; rewrite extract_hits in Ha; inversion Ha; subst a;
    inversion Hfeats; subst feats;
    unfold key_factor_lists; rewrite Ed, Ec, Er; repeat split; reflexivity.
Qed.

(** *** Totality on well-typed bundles *)

Lemma or_dict_ok (v : value) :
  section_ok v = true -> exists m, py_or v empty_dict = VDict m.
Proof.
  unfold section_ok, py_or, empty_dict. intros H.
  destruct (truthy v); simpl in H.
  - destruct v; try discriminate H. eexists. reflexivity.
  - eexists. reflexivity.
Qed.

Lemma section_ok_dict (name : string) (d : dict) :
  section_ok (dict_get name d) = true ->
  exists m, section_of name d = VDict m.
Proof.
  unfold section_of, dict_get, dict_get_or.
  destruct (assoc_get name d) as [v |]; intros H.
  - apply or_dict_ok, H.
  - exists []. reflexivity.
Qed.

Lemma or_else_returns (a b : result value) :
  returns a = true -> returns b = true -> returns (or_else a b) = true.
Proof.
  intros Ha Hb. unfold or_else. apply bind_returns; [exact Ha |].
  intros v _. destruct (truthy v); [reflexivity | exact Hb].
Qed.

Lemma strs_of_returns (l : list value) :
  forallb is_str l = true -> returns (strs_of l) = true.
Proof.
  induction l as [| v l IH]; simpl; intros H; [reflexivity |].
  apply andb_true_iff in H. destruct H as [Hv Hl].
  destruct v; try discriminate Hv.
  apply bind_returns; [apply IH, Hl | reflexivity].
Qed.

Lemma add_driver_returns (narr : dict) (key label : string)
      (drivers : list value) :
  strings_ok (dict_get key narr) = true ->
  returns (add_driver (VDict narr) key label drivers) = true.
Proof.
  unfold add_driver, attr_get, attr_get_or, subscript, dict_get, dict_get_or.
  destruct (assoc_get key narr) as [v |]; cbn [bind]; [| reflexivity].
  destruct v as [| b | n | x | t | l | m]; try reflexivity.
  cbn [is_list strings_ok bind]. intros Hl.
  destruct (truthy (VList l)); [| reflexivity].
  cbn [bind py_join].
  apply bind_returns; [apply bind_returns; [apply strs_of_returns, Hl |] |];
    reflexivity.
Qed.

(** The adapter returns on every bundle whose sections, where present and
    truthy, are mappings, whose driver lists hold strings and whose
    scenario names are strings; the [capacity] and [risk] sections are
    read only when there is no structured [features] mapping. *)
Lemma adapt_returns (d : dict) :
  typed_core d = true ->
  has_features d = true \/ typed_signals d = true ->
  returns (adapt_internal_bundle_to_v1 d) = true.
Proof.
  unfold typed_core. cbv zeta. intros Hcore Hfeat.
  repeat (apply andb_true_iff in Hcore; destruct Hcore as [Hcore ?]).
  destruct (section_ok_dict "scenarios" d Hcore) as (scen & Escen).
  destruct (section_ok_dict "narrative" d) as (narr & Enarr); [assumption |].
  destruct (section_ok_dict "demand" d) as (dem & Edem); [assumption |].
  rewrite Enarr, Escen in *. cbn [entries_of] in *.
  destruct (or_dict_ok (dict_get "diagnostics" narr)) as (dg & Edg);
    [assumption |].
  unfold adapt_internal_bundle_to_v1. cbv zeta.
  fold (section_of "demand" d) (section_of "capacity" d) (section_of "risk" d)
       (section_of "narrative" d) (section_of "scenarios" d).
  rewrite Enarr, Escen, Edem.
  apply bind_returns; [repeat apply or_else_returns; reflexivity | intros ? _].
  apply bind_returns; [reflexivity | intros diag Hdiag].
  cbn in Hdiag. injection Hdiag as Hdiag.
  fold (dict_get "diagnostics" narr) in Hdiag. rewrite Edg in Hdiag. subst diag.
  apply bind_returns; [repeat apply or_else_returns; reflexivity | intros ? _].
  apply bind_returns; [repeat apply or_else_returns; reflexivity | intros ? _].
  apply bind_returns; [reflexivity | intros ? _].
  apply bind_returns; [repeat apply or_else_returns; reflexivity | intros ? _].
  apply bind_returns; [apply add_driver_returns; assumption | intros ? _].
  apply bind_returns; [apply add_driver_returns; assumption | intros ? _].
  apply bind_returns; [reflexivity | intros slist Hslist].
  cbn in Hslist. injection Hslist as Hslist. subst slist.
  apply bind_returns; [rewrite scenarios_list_returns; assumption | intros ? _].
  apply bind_returns.
  - unfold has_features in Hfeat.
    destruct (is_dict (dict_get "features" d) && truthy (dict_get "features" d))
      eqn:F.
    + apply andb_true_iff in F. destruct F as [-> ->]. reflexivity.
    + destruct Hfeat as [Hfeat | Hsig]; [discriminate Hfeat |].
      unfold typed_signals in Hsig. apply andb_true_iff in Hsig.
      destruct Hsig as [Hcap Hrisk].
      destruct (section_ok_dict "capacity" d Hcap) as (cap & ->).
      destruct (section_ok_dict "risk" d Hrisk) as (rsk & ->).
      destruct (negb _ || negb _); [| reflexivity].
      cbn [attr_get attr_get_or bind]. rewrite extract_hits. reflexivity.
  - intros ? _. reflexivity.
Qed.

(** *** What a run that returns tells about the bundle *)

Lemma or_dict_ok_inv (v : value) :
  is_dict (py_or v empty_dict) = true -> section_ok v = true.
Proof.
  unfold section_ok, py_or. destruct (truthy v); simpl; intros H.
  - exact H.
  - reflexivity.
Qed.

Lemma section_dict_ok (name : string) (d : dict) :
  is_dict (section_of name d) = true -> section_ok (dict_get name d) = true.
Proof.
  unfold section_of, dict_get, dict_get_or.
  destruct (assoc_get name d) as [v |]; intros H.
  - apply or_dict_ok_inv, H.
  - reflexivity.
Qed.

Lemma strs_of_returns_eq (l : list value) :
  returns (strs_of l) = forallb is_str l.
Proof.
  induction l as [| v l IH]; simpl; [reflexivity |].
  destruct v; try reflexivity. simpl. rewrite <- IH.
  destruct (strs_of l); reflexivity.
Qed.

Lemma add_driver_returns_eq (narr : dict) (key label : string)
      (drivers : list value) :
  returns (add_driver (VDict narr) key label drivers)
  = strings_ok (dict_get key narr).
Proof.
  unfold add_driver, attr_get, attr_get_or, subscript, dict_get, dict_get_or.
  destruct (assoc_get key narr) as [v |]; cbn [bind]; [| reflexivity].
  destruct v as [| b | n | x | t | l | m]; try reflexivity.
  cbn [is_list strings_ok bind].
  destruct l as [| v l]; [reflexivity |].
  cbn [truthy bind py_join]. rewrite <- strs_of_returns_eq.
  destruct (strs_of (v :: l)); reflexivity.
Qed.

(** The typing of the sections that every run reads is necessary: a run
    that returns found [scenarios], [narrative] and [diagnostics] absent,
    falsy or mappings, the driver lists made of strings and the scenario
    names strings; and it found [demand], [capacity] and [risk] so too
    unless a structured [features] mapping spared it the reading. *)
Lemma adapt_returns_only_typed (d out : dict) :
  adapt_internal_bundle_to_v1 d = Ok out ->
  let narrative := entries_of (section_of "narrative" d) in
  let scenarios_obj := entries_of (section_of "scenarios" d) in
  section_ok (dict_get "scenarios" d) = true
  /\ section_ok (dict_get "narrative" d) = true
  /\ section_ok (dict_get "diagnostics" narrative) = true
  /\ strings_ok (dict_get "upside_conditions" narrative) = true
  /\ strings_ok (dict_get "downside_risks" narrative) = true
  /\ scenario_list_ok (dict_get_or "scenarios" empty_list scenarios_obj) = true
  /\ (has_features d = true
      \/ (section_ok (dict_get "demand" d) = true /\ typed_signals d = true)).
Proof.
  intros H narrative scenarios_obj. subst narrative scenarios_obj.
  apply adapt_Ok_inv in H.
  destruct H as (scen & narr & dg & posture & confidence & summary & drivers
                 & scenarios & feats & rules
                 & Escen & Enarr & Hdg & Hf & (drivers0 & Hd0 & Hd1) & Hsc & _).
  split; [apply section_dict_ok; rewrite Escen; reflexivity |].
  split; [apply section_dict_ok; rewrite Enarr; reflexivity |].
  rewrite Escen, Enarr. cbn [entries_of].
  split.
  { apply or_dict_ok_inv. unfold diagnostics_of in Hdg. rewrite Enarr in Hdg.
    rewrite Hdg. reflexivity. }
  split; [rewrite <- add_driver_returns_eq with (label := "Upside conditions: ")
                                               (drivers := []);
          rewrite Hd0; reflexivity |].
  split; [rewrite <- add_driver_returns_eq with (label := "Downside risks: ")
                                               (drivers := drivers0);
          rewrite Hd1; reflexivity |].
  split; [rewrite <- scenarios_list_returns, Hsc; reflexivity |].
  destruct Hf as [[F _] | (_ & Hdem & Hcap & Hrisk & _)]; [left; exact F |].
  right. unfold typed_signals.
  rewrite !section_dict_ok by assumption. split; reflexivity.
Qed.

Lemma add_driver_not_list (narr : dict) (key label : string)
      (drivers : list value) :
  is_list (dict_get key narr) = false ->
  add_driver (VDict narr) key label drivers = Ok drivers.
Proof.
  unfold add_driver. cbn [attr_get attr_get_or bind].
  fold (dict_get key narr). intros ->. reflexivity.
Qed.

Lemma adapt_empty : adapt_internal_bundle_to_v1 [] = Ok v1_defaults.
Proof. reflexivity. Qed.

Lemma adapt_shaped (d out : dict) :
  adapt_internal_bundle_to_v1 d = Ok out -> fully_shaped out = true.
Proof.
  intros H. apply adapt_Ok_inv in H.
  destruct H as (scen & narr & dg & posture & confidence & summary & drivers
                 & scenarios & feats & rules & _ & _ & _ & _ & _ & _ & ->).
  reflexivity.
Qed.

(** *** C1 *)

(** C1, as amended.  On every bundle whose [demand], [capacity], [risk],
    [narrative], [scenarios] and [narrative.diagnostics] values are absent,
    falsy or mappings, whose [upside_conditions] and [downside_risks] are
    lists of strings or not lists at all, and whose scenario records carry
    a name that is absent, falsy or a string, the adapter returns
    normally; the empty mapping yields the canonical document with all
    defaults.  On a run that returns, an absent or falsy signal section
    shows as the empty mapping, a scenario list of the wrong type as no
    scenarios, and driver lists of the wrong type as no drivers; scenario
    entries that are not mappings are passed over. *)
Theorem adapter_total_on_typed_bundles :
  (forall d : dict,
      typed_core d = true -> typed_signals d = true ->
      exists out, adapt_internal_bundle_to_v1 d = Ok out)
  /\ adapt_internal_bundle_to_v1 [] = Ok v1_defaults
  /\ (forall (d out : dict),
         adapt_internal_bundle_to_v1 d = Ok out ->
         let narrative := entries_of (section_of "narrative" d) in
         let scenarios_obj := entries_of (section_of "scenarios" d) in
         (forall name,
             In name ["demand"; "capacity"; "risk"] ->
             truthy (dict_get name d) = false ->
             at_path ["signals"; name] (VDict out) = Some empty_dict)
         /\ (is_list (dict_get_or "scenarios" empty_list scenarios_obj) = false ->
             at_path ["scenarios"] (VDict out) = Some empty_dict)
         /\ (is_list (dict_get "upside_conditions" narrative) = false ->
             is_list (dict_get "downside_risks" narrative) = false ->
             at_path ["narrative"; "drivers"] (VDict out) = Some empty_list))
  /\ (forall l : list value,
         _scenarios_list_to_dict (VList l)
         = _scenarios_list_to_dict (VList (filter is_dict l))).
Proof.
  split; [| split; [| split; [| intros l; apply scenario_steps_skip]]].
  - intros d Hcore Hsig. apply returns_Ok.
    apply adapt_returns; [exact Hcore | right; exact Hsig].
  - apply adapt_empty.
  - intros d out H narrative scenarios_obj. subst narrative scenarios_obj.
    apply adapt_Ok_inv in H.
    destruct H as (scen & narr & dg & posture & confidence & summary & drivers
                   & scenarios & feats & rules
                   & Escen & Enarr & _ & _ & (drivers0 & Hd0 & Hd1) & Hsc & ->).
    rewrite Escen, Enarr. cbn [entries_of]. split; [| split].
    + intros name Hin Hfalsy.
      assert (Hsec : section_of name d = empty_dict).
      { unfold section_of, py_or, dict_get_or.
        unfold dict_get, dict_get_or in Hfalsy.
        destruct (assoc_get name d) as [v |]; [rewrite Hfalsy |]; reflexivity. }
      simpl in Hin.
      destruct Hin as [<- | [<- | [<- | []]]]; cbn; rewrite Hsec; reflexivity.
    + intros Hl. cbn.
      destruct (dict_get_or "scenarios" empty_list scen);
        try discriminate Hl; simpl in Hsc; inversion Hsc; reflexivity.
    + intros Hu Hdn.
      rewrite add_driver_not_list in Hd0 by exact Hu.
      inversion Hd0; subst drivers0.
      rewrite add_driver_not_list in Hd1 by exact Hdn.
      inversion Hd1; subst drivers. reflexivity.
Qed.

(** *** C2 *)

(** C2.  The output of the adapter holds every key of the canonical
    document: [schema_version], [business_id], [window_weeks], [posture],
    [confidence], [headline], [signals] with [demand], [capacity] and
    [risk], [scenarios], [narrative] with [summary] and [drivers],
    [explainability.features], [diagnostics.rules_fired] and
    [diagnostics.flags]; every well-typed bundle, however sparse, has such
    an output, and where the input supplies nothing the keys hold the
    placeholders and empty values of [v1_defaults]. *)
Theorem output_fully_shaped :
  (forall (d out : dict),
      adapt_internal_bundle_to_v1 d = Ok out ->
      fully_shaped out = true
      /\ map fst out =
         ["schema_version"; "business_id"; "window_weeks"; "posture";
          "confidence"; "headline"; "signals"; "scenarios"; "narrative";
          "explainability"; "diagnostics"])
  /\ (forall d : dict,
         typed_core d = true -> typed_signals d = true ->
         exists out,
           adapt_internal_bundle_to_v1 d = Ok out /\ fully_shaped out = true)
  /\ adapt_internal_bundle_to_v1 [] = Ok v1_defaults.
Proof.
  split; [| split; [| apply adapt_empty]].
  - intros d out H. split; [eapply adapt_shaped, H |].
    apply adapt_Ok_inv in H.
    destruct H as (scen & narr & dg & posture & confidence & summary & drivers
                   & scenarios & feats & rules & _ & _ & _ & _ & _ & _ & ->).
    reflexivity.
  - intros d Hcore Hsig.
    destruct (returns_Ok _ (adapt_returns d Hcore (or_intror Hsig))) as (out & H).
    exists out. split; [exact H | eapply adapt_shaped, H].
Qed.

(** *** C3 *)

(** C3.  A document whose [schema_version] is ["eff_assessment_v1"] is
    returned by [to_v1] unchanged. *)
Theorem to_v1_keeps_canonical (d : dict) :
  dict_get "schema_version" d = VStr "eff_assessment_v1" ->
  to_v1 d = Ok d.
Proof.
  intros H. unfold to_v1, is_v1. rewrite H. reflexivity.
Qed.

(** *** C9 *)

Lemma adapt_is_v1 (d out : dict) :
  adapt_internal_bundle_to_v1 d = Ok out ->
  dict_get "schema_version" out = VStr "eff_assessment_v1"
  /\ is_v1 out = true.
Proof.
  intros H. apply adapt_Ok_inv in H.
  destruct H as (scen & narr & dg & posture & confidence & summary & drivers
                 & scenarios & feats & rules & _ & _ & _ & _ & _ & _ & ->).
  split; reflexivity.
Qed.

Lemma to_v1_fixed (p out : dict) : to_v1 p = Ok out -> to_v1 out = Ok out.
Proof.
  unfold to_v1 at 1. destruct (is_v1 p) eqn:E; intros H.
  - inversion H; subst out. unfold to_v1. rewrite E. reflexivity.
  - apply adapt_is_v1 in H. destruct H as [_ H].
    unfold to_v1. rewrite H. reflexivity.
Qed.

(** C9.  Every output of the adapter carries [schema_version]
    ["eff_assessment_v1"] and is accepted by [is_v1]; hence [to_v1] is
    idempotent on every mapping: running it on its own result gives that
    result again. *)
Theorem to_v1_idempotent :
  (forall (d out : dict),
      adapt_internal_bundle_to_v1 d = Ok out ->
      dict_get "schema_version" out = VStr "eff_assessment_v1"
      /\ is_v1 out = true)
  /\ (forall p : dict, (out <- to_v1 p ;; to_v1 out) = to_v1 p)
  /\ (forall (p out : dict), to_v1 p = Ok out -> to_v1 out = Ok out).
Proof.
  split; [exact adapt_is_v1 | split].
  - intros p. destruct (to_v1 p) as [out | e] eqn:E; simpl.
    + apply to_v1_fixed in E. exact E.
    + reflexivity.
  - exact to_v1_fixed.
Qed.

(** *** C10 *)

(** C10.  [window_weeks] is a plain key lookup: the default 8 applies only
    when the key is absent, and a value that is present is passed through
    unchanged, whatever it is, null, zero and non-integers included. *)
Theorem window_weeks_plain_lookup (d out : dict) :
  adapt_internal_bundle_to_v1 d = Ok out ->
  (forall v, assoc_get "window_weeks" d = Some v ->
             dict_get "window_weeks" out = v)
  /\ (assoc_get "window_weeks" d = None ->
      dict_get "window_weeks" out = VInt 8).
Proof.
  intros H. apply adapt_Ok_inv in H.
  destruct H as (scen & narr & dg & posture & confidence & summary & drivers
                 & scenarios & feats & rules & _ & _ & _ & _ & _ & _ & ->).
  split.
  - intros v Hv. cbn. unfold dict_get_or. rewrite Hv. reflexivity.
  - intros Hv. cbn. unfold dict_get_or. rewrite Hv. reflexivity.
Qed.

(** *** C4 *)


(** *** C5 *)


(** *** C6 *)

(** C6.  The scenario list is converted record by record in input order:
    entries that are not mappings are skipped, a kept record is keyed by
    its lower-cased trimmed name, records whose name is empty after
    trimming are dropped, and of two records with the same normalised
    name the later one overwrites the earlier, without error: the only
    records that raise are those whose name is a truthy value that is not
    a string.  The list of a ["Base"] record followed by a ["BASE"] record
    yields the single entry ["base"], with the second record's
    [earnings_direction]. *)
Theorem scenarios_last_wins :
  (forall (l : list value) (out : dict),
      _scenarios_list_to_dict (VList l) = Ok out ->
      out = assign_all (scenario_entries l) []
      /\ forall name,
          assoc_get name out = last_assigned name (scenario_entries l))
  /\ (forall l : list value,
         forallb scenario_ok l = true ->
         exists out, _scenarios_list_to_dict (VList l) = Ok out)
  /\ (forall l : list value,
         _scenarios_list_to_dict (VList l)
         = _scenarios_list_to_dict (VList (filter is_dict l)))
  /\ (forall (out rec : dict) (s : string),
         dict_get "scenario" rec = VStr s ->
         scenario_step out (VDict rec)
         = Ok (if Text.is_empty (Text.lower (Text.strip s)) then out
               else assoc_set (Text.lower (Text.strip s))
                              (scenario_record rec) out))
  /\ _scenarios_list_to_dict scenarios_base_twice
     = Ok [("base",
             VDict [("earnings_direction", VStr "Down");
                    ("confidence", VStr EM_DASH);
                    ("primary_drivers", VList []);
                    ("explanation", VStr EmptyString)])].
Proof.
  split; [| split; [| split; [| split]]].
  - intros l out H. simpl in H. apply scenario_steps_entries in H.
    split; [exact H |]. intros name. subst out.
    rewrite assoc_get_assign_all.
    destruct (last_assigned name (scenario_entries l)); reflexivity.
  - intros l Hl. apply returns_Ok.
    rewrite scenarios_list_returns. exact Hl.
  - intros l. apply scenario_steps_skip.
  - intros out rec s H. apply scenario_step_named, H.
  - reflexivity.
Qed.

(** *** C7 *)

(** C7.  The output's [business_id] is the first truthy candidate of the
    chain: top level, then the [scenarios] section, then the [narrative]
    section, then the [demand] section, and ["—"] when none is.  So a
    value carried by the narrative section alone is used, and a top-level
    value wins over one in the narrative section. *)
Theorem business_id_fallback_chain (d out : dict) :
  adapt_internal_bundle_to_v1 d = Ok out ->
  dict_get "business_id" out
  = first_truthy
      [dict_get "business_id" d;
       dict_get "business_id" (entries_of (section_of "scenarios" d));
       dict_get "business_id" (entries_of (section_of "narrative" d));
       dict_get "business_id" (entries_of (section_of "demand" d))]
      (VStr EM_DASH)
  /\ (truthy (dict_get "business_id" d) = false ->
      truthy (dict_get "business_id" (entries_of (section_of "scenarios" d)))
      = false ->
      truthy (dict_get "business_id" (entries_of (section_of "narrative" d)))
      = true ->
      dict_get "business_id" out
      = dict_get "business_id" (entries_of (section_of "narrative" d)))
  /\ (truthy (dict_get "business_id" d) = true ->
      dict_get "business_id" out = dict_get "business_id" d).
Proof.
  intros H. apply adapt_Ok_inv in H.
  destruct H as (scen & narr & dg & posture & confidence & summary & drivers
                 & scenarios & feats & rules & _ & _ & _ & _ & _ & _ & Hout).
  assert (Hb : dict_get "business_id" out = business_id_chain d)
    by (subst out; reflexivity).
  rewrite Hb. unfold business_id_chain.
  split; [reflexivity | split].
  - intros T1 T2 T3.
    rewrite first_truthy_next by exact T1.
    rewrite first_truthy_next by exact T2.
    apply first_truthy_here, T3.
  - intros T1. apply first_truthy_here, T1.
Qed.

(** *** C8 *)

(** C8, as amended.  The output's [headline] is its [posture] followed by
    a period and, when [narrative.diagnostics.capacity_reality] is truthy
    (present and not null, false, zero or empty), by the clause
    [" Capacity reality: {value}."].  With posture ["Strong"] and capacity
    reality ["constrained"] it is
    ["Strong. Capacity reality: constrained."]; with the field absent it
    is ["Strong."]. *)
Theorem headline_composition (d out : dict) :
  adapt_internal_bundle_to_v1 d = Ok out ->
  let cap := dict_get "capacity_reality" (entries_of (diagnostics_of d)) in
  dict_get "headline" out
  = VStr ((py_str (dict_get "posture" out) ++ ".")
          ++ (if truthy cap
              then " Capacity reality: " ++ py_str cap ++ "."
              else EmptyString))
  /\ (dict_get "posture" out = VStr "Strong" ->
      cap = VStr "constrained" ->
      dict_get "headline" out = VStr "Strong. Capacity reality: constrained.")
  /\ (dict_get "posture" out = VStr "Strong" ->
      assoc_get "capacity_reality" (entries_of (diagnostics_of d)) = None ->
      dict_get "headline" out = VStr "Strong.").
Proof.
  intros H cap. subst cap. apply adapt_Ok_inv in H.
  destruct H as (scen & narr & dg & posture & confidence & summary & drivers
                 & scenarios & feats & rules & _ & _ & Hdg & _ & _ & _ & Hout).
  rewrite Hdg. cbn [entries_of].
  assert (Hp : dict_get "posture" out = posture) by (subst out; reflexivity).
  assert (Hh : dict_get "headline" out
               = VStr (headline_of posture (dict_get "capacity_reality" dg)))
    by (subst out; reflexivity).
  rewrite Hp, Hh. unfold headline_of. split; [reflexivity | split].
  - intros -> ->. reflexivity.
  - intros -> Habs. unfold dict_get, dict_get_or. rewrite Habs. reflexivity.
Qed.

(* ================================================================== *)
(** ** Further properties of the adapter *)

Lemma strs_of_Ok (l : list value) (parts : list string) :
  strs_of l = Ok parts -> parts = map py_str l /\ forallb is_str l = true.
Proof.
  revert parts. induction l as [| v l IH]; intros parts H; simpl in H.
  - inversion H. split; reflexivity.
  - destruct v; try discriminate H. bind_inv H. inversion H; subst parts.
    destruct (IH a Ha) as [-> Hl]. split; [reflexivity | exact Hl].
Qed.

Lemma add_driver_line (narr : dict) (key label : string)
      (drivers r : list value) :
  add_driver (VDict narr) key label drivers = Ok r ->
  r = (drivers ++ driver_line narr key label)%list.
Proof.
  unfold add_driver, driver_line, attr_get, attr_get_or, subscript, dict_get,
    dict_get_or.
  destruct (assoc_get key narr) as [v |]; cbn [bind].
  - destruct v as [| b | n | x | t | l | m]; cbn [is_list bind];
      try (intros H; inversion H; rewrite app_nil_r; reflexivity).
    destruct l as [| v l]; cbn [truthy bind];
      [intros H; inversion H; rewrite app_nil_r; reflexivity |].
    unfold py_join. intros H. bind_inv H. bind_inv Ha.
    apply strs_of_Ok in Ha0. destruct Ha0 as [-> _].
    inversion Ha; subst a. inversion H. reflexivity.
  - intros H. inversion H. rewrite app_nil_r. reflexivity.
Qed.

Lemma chain_of_two (m1 m2 : dict) (k1 k2 : string) (dflt p : value) :
  or_else (attr_get (VDict m1) k1)
    (or_else (attr_get (VDict m2) k2) (Ok dflt)) = Ok p ->
  p = first_truthy [dict_get k1 m1; dict_get k2 m2] dflt.
Proof.
  unfold or_else, attr_get, attr_get_or, first_truthy. cbn [bind find].
  fold (dict_get k1 m1) (dict_get k2 m2).
  destruct (truthy (dict_get k1 m1)); [intros H; inversion H; reflexivity |].
  destruct (truthy (dict_get k2 m2)); intros H; inversion H; reflexivity.
Qed.

(** Every successful run of the adapter, with each field spelled out. *)
Lemma adapt_Ok_view (d out : dict) :
  adapt_internal_bundle_to_v1 d = Ok out ->
  exists scen narr dg scenarios feats,
    section_of "scenarios" d = VDict scen
    /\ section_of "narrative" d = VDict narr
    /\ diagnostics_of d = VDict dg
    /\ features_from d feats
    /\ _scenarios_list_to_dict (dict_get_or "scenarios" empty_list scen)
       = Ok scenarios
    /\ out = v1_document d narr dg scenarios feats.
Proof.
  intros H. pose proof (adapt_Ok_inv d out H) as Hinv.
  destruct Hinv as (scen & narr & dg & posture0 & confidence0 & summary0
                    & drivers00 & scenarios & feats & rules
                    & Escen & Enarr & Hdg & Hf & _ & Hsc & Hout).
  exists scen, narr, dg, scenarios, feats.
  split; [exact Escen |]. split; [exact Enarr |]. split; [exact Hdg |].
  split; [exact Hf |]. split; [exact Hsc |].
  unfold adapt_internal_bundle_to_v1 in H. cbv zeta in H.
  fold (section_of "demand" d) (section_of "capacity" d) (section_of "risk" d)
       (section_of "narrative" d) (section_of "scenarios" d) in H.
  bind_inv H. rename a into business_id, Ha into Hbid.
  apply business_id_expr in Hbid.
  rewrite Enarr, Escen in H. cbn [is_dict] in H.
  bind_inv H. rename a into diag, Ha into Hdiag.
  cbn [attr_get attr_get_or bind] in Hdiag.
  fold (dict_get "diagnostics" narr) in Hdiag.
  assert (diag = VDict dg).
  { unfold diagnostics_of in Hdg. rewrite Enarr in Hdg. congruence. }
  subst diag.
  bind_inv H. rename a into posture, Ha into Hposture.
  apply chain_of_two in Hposture.
  bind_inv H. rename a into confidence, Ha into Hconf.
  apply chain_of_two in Hconf.
  bind_inv H. rename a into cap, Ha into Hcap.
  bind_inv H. rename a into summary, Ha into Hsummary.
  apply chain_of_two in Hsummary.
  bind_inv H. rename a into drivers0, Ha into Hd0.
  apply add_driver_line in Hd0.
  bind_inv H. rename a into drivers, Ha into Hd1.
  apply add_driver_line in Hd1.
  bind_inv H. rename a into slist, Ha into Hslist.
  bind_inv H. rename a into scenarios', Ha into Hscen.
  bind_inv H. rename a into feats', Ha into Hfeats.
  bind_inv H. bind_inv H. bind_inv H. bind_inv H.
  cbn in Hcap, Ha, Ha0, Ha1, Ha2, Hslist.
  injection Hcap as <-. injection Ha as <-. injection Ha0 as <-.
  injection Ha1 as <-. injection Ha2 as <-. injection Hslist as <-.
  assert (Es : scenarios' = scenarios) by congruence.
  assert (Ef : feats' = feats).
  { pose proof H as H'. rewrite Hout in H'. injection H'. intros. assumption. }
  subst scenarios' feats' business_id posture confidence summary drivers drivers0.
  injection H as <-.
  unfold v1_document, posture_chain, confidence_chain, summary_chain,
    drivers_of, rules_fired_of.
  rewrite Escen, Enarr, Hdg. reflexivity.
Qed.

Lemma first_truthy_truthy (candidates : list value) (dflt : value) :
  truthy dflt = true -> truthy (first_truthy candidates dflt) = true.
Proof.
  unfold first_truthy. intros Hd.
  destruct (find truthy candidates) as [v |] eqn:E; [| exact Hd].
  apply find_some in E. apply E.
Qed.

Lemma first_truthy_or_default (candidates : list value) (dflt : value) :
  truthy (first_truthy candidates dflt) = true
  \/ first_truthy candidates dflt = dflt.
Proof.
  unfold first_truthy.
  destruct (find truthy candidates) as [v |] eqn:E; [left | right; reflexivity].
  apply find_some in E. apply E.
Qed.

(** X1.  The output's [posture] is the first truthy of the [scenarios]
    section's [posture] and [narrative.diagnostics]'s
    [earnings_posture_rule_result], and ["Unknown"] when neither is. *)
Theorem posture_fallback_chain (d out : dict) :
  adapt_internal_bundle_to_v1 d = Ok out ->
  dict_get "posture" out
  = first_truthy
      [dict_get "posture" (entries_of (section_of "scenarios" d));
       dict_get "earnings_posture_rule_result" (entries_of (diagnostics_of d))]
      (VStr "Unknown").
Proof.
  intros H. apply adapt_Ok_view in H.
  destruct H as (scen & narr & dg & scenarios & feats & _ & _ & _ & _ & _ & ->).
  reflexivity.
Qed.

(** X2.  The output's [confidence] is the first truthy of the [narrative]
    section's [confidence_level] and [narrative.diagnostics]'s
    [confidence_level_rule_result], and ["unknown"] when neither is. *)
Theorem confidence_fallback_chain (d out : dict) :
  adapt_internal_bundle_to_v1 d = Ok out ->
  dict_get "confidence" out
  = first_truthy
      [dict_get "confidence_level" (entries_of (section_of "narrative" d));
       dict_get "confidence_level_rule_result"
                (entries_of (diagnostics_of d))]
      (VStr "unknown").
Proof.
  intros H. apply adapt_Ok_view in H.
  destruct H as (scen & narr & dg & scenarios & feats & _ & _ & _ & _ & _ & ->).
  reflexivity.
Qed.

(** X3.  The output's [narrative.summary] is the first truthy of the
    narrative's [base_case_summary] and [future_earnings_profile]; when
    neither is truthy it is the empty string, so a null, zero or empty
    value of the bundle never shows there. *)
Theorem summary_fallback_chain (d out : dict) :
  adapt_internal_bundle_to_v1 d = Ok out ->
  let narrative := entries_of (section_of "narrative" d) in
  at_path ["narrative"; "summary"] (VDict out)
  = Some (first_truthy
            [dict_get "base_case_summary" narrative;
             dict_get "future_earnings_profile" narrative]
            empty_str)
  /\ forall s,
      at_path ["narrative"; "summary"] (VDict out) = Some s ->
      truthy s = true \/ s = empty_str.
Proof.
  intros H narrative. subst narrative. apply adapt_Ok_view in H.
  destruct H as (scen & narr & dg & scenarios & feats & _ & _ & _ & _ & _ & ->).
  split; [reflexivity |].
  intros s Hs. cbn in Hs. injection Hs as <-. apply first_truthy_or_default.
Qed.

(** X4.  The [business_id], the [posture] and the [confidence] of every
    output are truthy, and the [headline] is a string: none of them is
    ever null or empty. *)
Theorem identity_fields_never_blank (d out : dict) :
  adapt_internal_bundle_to_v1 d = Ok out ->
  truthy (dict_get "business_id" out) = true
  /\ truthy (dict_get "posture" out) = true
  /\ truthy (dict_get "confidence" out) = true
  /\ is_str (dict_get "headline" out) = true
  /\ truthy (dict_get "headline" out) = true.
Proof.
  intros H. apply adapt_Ok_view in H.
  destruct H as (scen & narr & dg & scenarios & feats & _ & _ & _ & _ & _ & ->).
  repeat split; try (apply first_truthy_truthy; reflexivity).
  change (dict_get "headline" _)
    with (VStr (headline_of (posture_chain d) (dict_get "capacity_reality" dg))).
  unfold headline_of. cbn [truthy].
  destruct (py_str (posture_chain d)); reflexivity.
Qed.

Lemma driver_line_short (narr : dict) (key label : string) :
  length (driver_line narr key label) <= 1
  /\ forallb is_str (driver_line narr key label) = true.
Proof.
  unfold driver_line.
  destruct (dict_get key narr) as [| b | n | x | t | l | m];
    try (split; [apply Nat.le_0_l | reflexivity]).
  destruct l; split; simpl; auto.
Qed.

(** X5.  The output's [narrative.drivers] has at most two entries, all of
    them strings: the upside line first, if [upside_conditions] is a
    non-empty list, then the downside line, if [downside_risks] is one;
    a line is its label followed by the list's strings joined with
    ["; "]. *)
Theorem drivers_at_most_two (d out : dict) :
  adapt_internal_bundle_to_v1 d = Ok out ->
  let narrative := entries_of (section_of "narrative" d) in
  at_path ["narrative"; "drivers"] (VDict out)
  = Some (VList
            (driver_line narrative "upside_conditions" "Upside conditions: "
             ++ driver_line narrative "downside_risks" "Downside risks: "))
  /\ length (drivers_of narrative) <= 2
  /\ forallb is_str (drivers_of narrative) = true
  /\ (forall x l,
         dict_get "upside_conditions" narrative = VList (x :: l) ->
         forallb is_str (x :: l) = true
         /\ hd_error (drivers_of narrative)
            = Some (VStr ("Upside conditions: "
                          ++ Text.join "; " (map py_str (x :: l))))).
Proof.
  intros H narrative. subst narrative.
  pose proof (adapt_returns_only_typed d out H) as Htyped.
  apply adapt_Ok_view in H.
  destruct H as (scen & narr & dg & scenarios & feats & _ & Enarr & _ & _ & _ & ->).
  cbv zeta in Htyped. rewrite Enarr in *. cbn [entries_of] in *.
  destruct Htyped as (_ & _ & _ & Hup & _).
  destruct (driver_line_short narr "upside_conditions" "Upside conditions: ")
    as [L1 S1].
  destruct (driver_line_short narr "downside_risks" "Downside risks: ")
    as [L2 S2].
  split; [reflexivity | split; [| split]].
  - unfold drivers_of. rewrite length_app. lia.
  - unfold drivers_of. rewrite forallb_app, S1, S2. reflexivity.
  - intros x l Hl. rewrite Hl in Hup. split; [exact Hup |].
    unfold drivers_of, driver_line. rewrite Hl. reflexivity.
Qed.

(** X6.  The output's [diagnostics.rules_fired] is always the same four
    labelled strings in the same order, each showing the diagnostics value
    as [str] renders it, so an absent value shows as ["None"];
    [diagnostics.flags] is always the empty mapping. *)
Theorem rules_fired_four_lines (d out : dict) :
  adapt_internal_bundle_to_v1 d = Ok out ->
  let diag := entries_of (diagnostics_of d) in
  at_path ["diagnostics"; "rules_fired"] (VDict out)
  = Some (VList
            [VStr ("demand_certainty: "
                   ++ py_str (dict_get "demand_certainty" diag));
             VStr ("capacity_reality: "
                   ++ py_str (dict_get "capacity_reality" diag));
             VStr ("earnings_posture: "
                   ++ py_str (dict_get "earnings_posture_rule_result" diag));
             VStr ("confidence: "
                   ++ py_str (dict_get "confidence_level_rule_result" diag))])
  /\ at_path ["diagnostics"; "flags"] (VDict out) = Some empty_dict
  /\ (forall rule,
         In rule RULES ->
         assoc_get (snd rule) diag = None ->
         In (VStr (fst rule ++ ": None")) (rules_fired_of diag)).
Proof.
  intros H diag. subst diag. apply adapt_Ok_view in H.
  destruct H as (scen & narr & dg & scenarios & feats & _ & _ & Hdg & _ & _ & ->).
  rewrite Hdg. cbn [entries_of].
  split; [reflexivity | split; [reflexivity |]].
  intros rule Hin Habs. unfold rules_fired_of. apply in_map_iff.
  exists rule. split; [| exact Hin].
  unfold dict_get, dict_get_or. rewrite Habs. reflexivity.
Qed.

Lemma section_of_cases (name : string) (d : dict) :
  (truthy (dict_get name d) = true /\ section_of name d = dict_get name d)
  \/ (truthy (dict_get name d) = false /\ section_of name d = empty_dict).
Proof.
  unfold section_of, dict_get, dict_get_or, py_or.
  destruct (assoc_get name d) as [v |].
  - destruct (truthy v); [left | right]; split; reflexivity.
  - right. split; reflexivity.
Qed.

(** X7.  Each of [signals.demand], [signals.capacity] and [signals.risk]
    is the bundle's value under that key, passed through unchanged, when
    that value is truthy, and the empty mapping otherwise; and unless a
    structured [features] mapping was supplied, all three are mappings. *)
Theorem signals_pass_through (d out : dict) (name : string) :
  adapt_internal_bundle_to_v1 d = Ok out ->
  In name ["demand"; "capacity"; "risk"] ->
  (truthy (dict_get name d) = true ->
   at_path ["signals"; name] (VDict out) = Some (dict_get name d))
  /\ (truthy (dict_get name d) = false ->
      at_path ["signals"; name] (VDict out) = Some empty_dict)
  /\ (has_features d = false ->
      exists m, at_path ["signals"; name] (VDict out) = Some (VDict m)).
Proof.
  intros H Hin. apply adapt_Ok_view in H.
  destruct H as (scen & narr & dg & scenarios & feats & _ & _ & _ & Hf & _ & ->).
  assert (Hsig : at_path ["signals"; name]
                         (VDict (v1_document d narr dg scenarios feats))
                 = Some (section_of name d)).
  { simpl in Hin. destruct Hin as [<- | [<- | [<- | []]]]; reflexivity. }
  rewrite Hsig.
  destruct (section_of_cases name d) as [[T E] | [T E]]; rewrite E.
  - split; [reflexivity | split; [congruence |]].
    intros F. destruct Hf as [[F' _] | (_ & Hd & Hc & Hr & _)]; [congruence |].
    assert (Hn : is_dict (section_of name d) = true).
    { simpl in Hin. destruct Hin as [<- | [<- | [<- | []]]]; assumption. }
    rewrite E in Hn. destruct (dict_get name d); try discriminate Hn.
    eexists. reflexivity.
  - split; [congruence | split; [reflexivity |]].
    intros _. exists []. reflexivity.
Qed.

(** X8.  The output's [scenarios] is the conversion of the list under
    [scenarios.scenarios]: one entry per normalised name, holding the
    record assigned to it last; a value there that is not a list gives no
    scenarios. *)
Theorem scenarios_field_is_conversion (d out : dict) :
  adapt_internal_bundle_to_v1 d = Ok out ->
  let records :=
    list_items (dict_get_or "scenarios" empty_list
                            (entries_of (section_of "scenarios" d))) in
  at_path ["scenarios"] (VDict out)
  = Some (VDict (assign_all (scenario_entries records) []))
  /\ forall name,
      at_path ["scenarios"; name] (VDict out)
      = last_assigned name (scenario_entries records).
Proof.
  intros H records. subst records. apply adapt_Ok_view in H.
  destruct H as (scen & narr & dg & scenarios & feats
                 & Escen & _ & _ & _ & Hsc & ->).
  rewrite Escen. cbn [entries_of].
  assert (Hs : scenarios
               = assign_all
                   (scenario_entries
                      (list_items (dict_get_or "scenarios" empty_list scen)))
                   []).
  { destruct (dict_get_or "scenarios" empty_list scen) as [| b | n | x | t | l | m];
      try (simpl in Hsc; inversion Hsc; reflexivity).
    apply scenario_steps_entries in Hsc. exact Hsc. }
  split; [cbn; rewrite Hs; reflexivity |].
  intros name.
  change (at_path ["scenarios"; name] _)
    with (match assoc_get name scenarios with
          | Some v' => Some v'
          | None => None
          end).
  rewrite Hs, assoc_get_assign_all.
  destruct (last_assigned name _); reflexivity.
Qed.

(** X9.  The adapter reads eight keys of the bundle and nothing else:
    two bundles that agree on [demand], [capacity], [risk], [narrative],
    [scenarios], [business_id], [features] and [window_weeks] are adapted
    alike, whatever else they hold and in whatever order. *)
Theorem adapter_reads_eight_keys (d d' : dict) :
  (forall k, In k BUNDLE_KEYS -> assoc_get k d = assoc_get k d') ->
  adapt_internal_bundle_to_v1 d = adapt_internal_bundle_to_v1 d'.
Proof.
  intros Hk. unfold adapt_internal_bundle_to_v1, dict_get, dict_get_or.
  rewrite (Hk "demand"), (Hk "capacity"), (Hk "risk"), (Hk "narrative"),
    (Hk "scenarios"), (Hk "business_id"), (Hk "features"), (Hk "window_weeks")
    by (unfold BUNDLE_KEYS; simpl; tauto).
  reflexivity.
Qed.

(** *** The scenario map *)

Lemma conversion_entries (v : value) (out : dict) :
  _scenarios_list_to_dict v = Ok out ->
  out = assign_all (scenario_entries (list_items v)) [].
Proof.
  destruct v as [| b | n | x | t | l | m]; simpl; intros H;
    try (inversion H; reflexivity).
  apply scenario_steps_entries in H. exact H.
Qed.

Lemma scenario_entries_In (l : list value) (k : string) (r : value) :
  In (k, r) (scenario_entries l) ->
  exists rec,
    In (VDict rec) l
    /\ k = scenario_name rec
    /\ r = scenario_record rec
    /\ Text.is_empty k = false.
Proof.
  unfold scenario_entries. intros H. apply in_flat_map in H.
  destruct H as (s & Hs & H).
  destruct s as [| b | n | x | t | items | rec]; try contradiction H.
  simpl in H. destruct (Text.is_empty (scenario_name rec)) eqn:E;
    [contradiction H |].
  destruct H as [H | []]. inversion H; subst.
  exists rec. repeat split; assumption.
Qed.

Lemma scenario_name_normal (rec : dict) :
  Text.lower (scenario_name rec) = scenario_name rec
  /\ Text.strip (scenario_name rec) = scenario_name rec.
Proof.
  unfold scenario_name.
  destruct (py_or (dict_get "scenario" rec) empty_str);
    try (split; reflexivity).
  split; [apply TextFacts.lower_idem |].
  rewrite TextFacts.strip_lower, TextFacts.strip_idem. reflexivity.
Qed.

(** X10.  The map that the scenario conversion returns has distinct keys,
    and each key is non-empty, lower-case and trimmed: lower-casing or
    trimming it again changes nothing. *)
Theorem scenario_keys_normalised (v : value) (out : dict) :
  _scenarios_list_to_dict v = Ok out ->
  NoDup (map fst out)
  /\ forall k,
      In k (map fst out) ->
      k <> EmptyString /\ Text.lower k = k /\ Text.strip k = k.
Proof.
  intros H. apply conversion_entries in H. subst out. split.
  - apply assign_all_NoDup. constructor.
  - intros k Hk. apply in_map_iff in Hk. destruct Hk as ([k' r] & <- & Hin).
    apply assign_all_In in Hin. destruct Hin as [Hin | []].
    apply scenario_entries_In in Hin.
    destruct Hin as (rec & _ & -> & _ & Hne). cbn [fst].
    destruct (scenario_name_normal rec) as [Hl Hs].
    repeat split; try assumption.
    intros E. rewrite E in Hne. discriminate Hne.
Qed.

Lemma scenario_record_fields (rec : dict) :
  exists fields,
    scenario_record rec = VDict fields
    /\ map fst fields = SCENARIO_KEYS
    /\ dict_get "earnings_direction" fields
       = dict_get_or "earnings_direction" (VStr EM_DASH) rec
    /\ dict_get "confidence" fields
       = py_or (dict_get "confidence" rec) (VStr EM_DASH)
    /\ dict_get "primary_drivers" fields
       = py_or (dict_get_or "primary_drivers" empty_list rec) empty_list
    /\ dict_get "explanation" fields
       = py_or (dict_get_or "description" empty_str rec) empty_str.
Proof. eexists. repeat split; reflexivity. Qed.

(** X11.  Every record of the map that the scenario conversion returns is
    a mapping with exactly the keys [earnings_direction], [confidence],
    [primary_drivers] and [explanation], in which [confidence] is truthy,
    [primary_drivers] is truthy or the empty list and [explanation] is
    truthy or the empty string.  Its [earnings_direction] is that of a
    record of the list as it stands, null included, and the placeholder
    only where that record has no such key. *)
Theorem scenario_records_shaped (v : value) (out : dict) (k : string)
        (r : value) :
  _scenarios_list_to_dict v = Ok out ->
  In (k, r) out ->
  exists fields,
    r = VDict fields
    /\ map fst fields = SCENARIO_KEYS
    /\ truthy (dict_get "confidence" fields) = true
    /\ (truthy (dict_get "primary_drivers" fields) = true
        \/ dict_get "primary_drivers" fields = empty_list)
    /\ (truthy (dict_get "explanation" fields) = true
        \/ dict_get "explanation" fields = empty_str)
    /\ exists rec,
        In (VDict rec) (list_items v)
        /\ dict_get "earnings_direction" fields
           = match assoc_get "earnings_direction" rec with
             | Some direction => direction
             | None => VStr EM_DASH
             end.
Proof.
  intros H Hin. apply conversion_entries in H. subst out.
  apply assign_all_In in Hin. destruct Hin as [Hin | []].
  apply scenario_entries_In in Hin. destruct Hin as (rec & Hrec & _ & -> & _).
  destruct (scenario_record_fields rec) as (fields & -> & Hk & Hd & Hc & Hp & He).
  exists fields. split; [reflexivity | split; [exact Hk |]].
  rewrite Hc, Hp, He. unfold py_or. repeat split.
  - destruct (truthy (dict_get "confidence" rec)) eqn:E; [exact E | reflexivity].
  - destruct (truthy (dict_get_or "primary_drivers" empty_list rec)) eqn:E;
      [left; exact E | right; reflexivity].
  - destruct (truthy (dict_get_or "description" empty_str rec)) eqn:E;
      [left; exact E | right; reflexivity].
  - exists rec. split; [exact Hrec | exact Hd].
Qed.

Lemma scenario_entries_length (l : list value) :
  length (scenario_entries l) <= length (filter is_dict l).
Proof.
  unfold scenario_entries.
  induction l as [| s l IH]; simpl; [apply Nat.le_refl |].
  rewrite length_app.
  destruct s as [| b | n | x | t | items | rec]; simpl; try exact IH.
  destruct (Text.is_empty (scenario_name rec)); simpl; lia.
Qed.

(** X12.  The scenario conversion returns at most one entry per mapping
    in the list: entries that are not mappings, records without a name
    and repeated names only make the map smaller. *)
Theorem scenario_map_size (l : list value) (out : dict) :
  _scenarios_list_to_dict (VList l) = Ok out ->
  length out <= length (filter is_dict l).
Proof.
  intros H. apply conversion_entries in H. subst out. cbn [list_items].
  pose proof (assign_all_length (scenario_entries l) []) as H1.
  pose proof (scenario_entries_length l) as H2. simpl in H1. lia.
Qed.

Lemma scenario_step_raises (out : dict) (s : value) (e : exn) :
  scenario_step out s = Raise e -> e = AttributeError.
Proof.
  destruct s as [| b | n | x | t | items | rec]; simpl; try discriminate.
  destruct (py_or (dict_get "scenario" rec) empty_str); simpl;
    try (intros H; inversion H; reflexivity).
  destruct (Text.is_empty _); discriminate.
Qed.

Lemma scenario_steps_raise (l : list value) (e : exn) :
  forall out, foldM scenario_step out l = Raise e -> e = AttributeError.
Proof.
  induction l as [| s l IH]; intros out; simpl; [discriminate |].
  destruct (scenario_step out s) as [out' | e'] eqn:E; simpl.
  - apply IH.
  - intros H. inversion H; subst e'. eapply scenario_step_raises, E.
Qed.

(** X13.  The scenario conversion raises exactly when the list holds a
    mapping whose [scenario] is a truthy value that is not a string (a
    number, a list, a mapping), and what it raises then is
    [AttributeError]; on anything that is not a list it returns the
    empty map. *)
Theorem scenario_conversion_raises (v : value) :
  (forall e, _scenarios_list_to_dict v = Raise e -> e = AttributeError)
  /\ (returns (_scenarios_list_to_dict v) = false
      <-> exists rec,
           In (VDict rec) (list_items v)
           /\ truthy (dict_get "scenario" rec) = true
           /\ is_str (dict_get "scenario" rec) = false)
  /\ (is_list v = false -> _scenarios_list_to_dict v = Ok []).
Proof.
  split; [| split].
  - intros e. destruct v; simpl; try discriminate. apply scenario_steps_raise.
  - rewrite scenarios_list_returns. split.
    + intros H. destruct v as [| b | n | x | t | l | m]; try discriminate H.
      simpl in H. cbn [list_items].
      induction l as [| s l IH]; [discriminate H |].
      simpl in H. apply andb_false_iff in H. destruct H as [H | H].
      * destruct s as [| b | n | x | t | items | rec]; try discriminate H.
        exists rec. simpl in H. apply orb_false_iff in H. destruct H as [H1 H2].
        apply negb_false_iff in H1.
        split; [left; reflexivity | split; assumption].
      * destruct (IH H) as (rec & Hin & Hr). exists rec.
        split; [right; exact Hin | exact Hr].
    + intros (rec & Hin & Ht & Hs).
      destruct v as [| b | n | x | t | l | m]; try contradiction Hin.
      simpl. cbn [list_items] in Hin.
      induction l as [| s l IH]; [contradiction Hin |].
      simpl. apply andb_false_iff. destruct Hin as [-> | Hin].
      * left. simpl. rewrite Ht, Hs. reflexivity.
      * right. apply IH, Hin.
  - destruct v; try discriminate; reflexivity.
Qed.

(** *** The extracted features *)

Lemma name_char_facts (c : ascii) :
  is_name_char c = true ->
  negb (Text.isspace c) = true /\ negb (Ascii.eqb c space) = true.
Proof. destruct c as [[] [] [] [] [] [] [] []]; simpl; intros H; auto. Qed.

Lemma num_char_facts (c : ascii) :
  is_num_char c = true ->
  Ascii.eqb (Text.lower_char c) "t" = false
  /\ Ascii.eqb (Text.lower_char c) "f" = false.
Proof.
  destruct c as [[] [] [] [] [] [] [] []]; simpl; intros H;
    try discriminate H; split; reflexivity.
Qed.

(** The name a form captures goes into the features unchanged. *)
Lemma captured_name_verbatim (k : string) :
  Lang (RPlus is_name_char) k ->
  k <> EmptyString
  /\ Text.all_chars is_name_char k = true
  /\ Text.strip k = k
  /\ Text.replace_char space underscore k = k.
Proof.
  intros H. apply RegexFacts.lang_plus_chars in H. destruct H as [Hne Hall].
  split; [exact Hne | split; [exact Hall | split]].
  - apply TextFacts.strip_no_space.
    eapply TextFacts.all_chars_impl; [| exact Hall].
    intros c Hc. apply name_char_facts, Hc.
  - apply TextFacts.replace_char_absent.
    eapply TextFacts.all_chars_impl; [| exact Hall].
    intros c Hc. apply name_char_facts, Hc.
Qed.

Lemma within_NUM : within is_num_char NUM.
Proof.
  unfold NUM, is_num_char, RPlus. simpl.
  repeat split; intros c Hc; rewrite Hc; try reflexivity;
    rewrite ?orb_true_r; reflexivity.
Qed.

Lemma lang_NUM_nonempty (v : string) : Lang NUM v -> v <> EmptyString.
Proof.
  unfold NUM. cbn [seq]. intros H.
  apply RegexFacts.lang_seq_inv in H. destruct H as (w1 & r1 & -> & _ & H).
  apply RegexFacts.lang_seq_inv in H. destruct H as (w2 & r2 & -> & _ & H).
  apply RegexFacts.lang_seq_inv in H. destruct H as (w3 & r3 & -> & _ & H).
  apply RegexFacts.lang_seq_inv in H. destruct H as (w4 & r4 & -> & H & _).
  apply RegexFacts.lang_plus_chars in H. destruct H as [Hne _].
  do 3 apply RegexFacts.append_nonempty_r.
  destruct w4; [exfalso; apply Hne; reflexivity | discriminate].
Qed.

(** A number token is not a boolean word. *)
Lemma lang_NUM_not_bool (v : string) :
  Lang NUM v ->
  String.eqb (Text.lower v) "true" || String.eqb (Text.lower v) "false" = false.
Proof.
  intros H. pose proof (lang_NUM_nonempty v H) as Hne.
  apply RegexFacts.lang_within with (P := is_num_char) in H; [| apply within_NUM].
  destruct v as [| c v]; [contradiction Hne; reflexivity |].
  simpl in H. apply andb_true_iff in H. destruct H as [Hc _].
  apply num_char_facts in Hc. destruct Hc as [Ht Hf].
  simpl. rewrite Ht, Hf. reflexivity.
Qed.

Lemma lang_BOOL_word (v : string) :
  Lang (RAlt (iword "true") (iword "false")) v ->
  Text.lower v = "true" \/ Text.lower v = "false".
Proof.
  intros H. inversion H; subst;
    [left | right]; eapply RegexFacts.lang_iword; eassumption.
Qed.

(** The groups of the five forms. *)
Lemma form_groups (p : regex) (s : string) (m : captures) :
  In p SURFACE_FORMS ->
  search p s = Some m ->
  exists k v,
    assoc_get "k" m = Some k
    /\ assoc_get "v" m = Some v
    /\ Lang (RPlus is_name_char) k
    /\ ((In p _BOOL_PATTERNS
         /\ Lang (RAlt (iword "true") (iword "false")) v)
        \/ (In p _PATTERNS /\ Lang NUM v)).
Proof.
  intros Hp Hs.
  pose proof (RegexFacts.search_captures p s m Hs) as Hc.
  assert (Bk : binds "k" p = true)
    by (simpl in Hp; destruct Hp as [<- | [<- | [<- | [<- | [<- | []]]]]];
        reflexivity).
  assert (Bv : binds "v" p = true)
    by (simpl in Hp; destruct Hp as [<- | [<- | [<- | [<- | [<- | []]]]]];
        reflexivity).
  pose proof (RegexFacts.search_binds p "k" Bk s m Hs) as Hk.
  pose proof (RegexFacts.search_binds p "v" Bv s m Hs) as Hv.
  destruct (assoc_get "k" m) as [k |] eqn:Ek; [| contradiction Hk; reflexivity].
  destruct (assoc_get "v" m) as [v |] eqn:Ev; [| contradiction Hv; reflexivity].
  exists k, v. split; [reflexivity | split; [reflexivity |]].
  destruct (Hc "k" k Ek) as (rk & Hink & Lk).
  destruct (Hc "v" v Ev) as (rv & Hinv & Lv).
  simpl in Hp.
  destruct Hp as [<- | [<- | [<- | [<- | [<- | []]]]]];
    simpl in Hink, Hinv;
    repeat match goal with
           | H : _ \/ _ |- _ => destruct H as [H | H]
           | H : False |- _ => contradiction H
           | H : (_, _) = (_, _) |- _ => inversion H; clear H; subst
           end;
    (split; [exact Lk |]);
    first [ left; split; [simpl; tauto | exact Lv]
          | right; split; [simpl; tauto | exact Lv] ].
Qed.

Lemma feature_entry_verbatim (k v : string) :
  Lang (RPlus is_name_char) k ->
  feature_entry k v
  = if String.eqb (Text.lower v) "true" || String.eqb (Text.lower v) "false"
    then Some (k, VBool (String.eqb (Text.lower v) "true"))
    else match float_of_str v with
         | Some x => Some (k, VFloat x)
         | None => None
         end.
Proof.
  intros H. apply captured_name_verbatim in H.
  destruct H as (Hne & _ & Hs & Hr).
  unfold feature_entry. rewrite Hs, Hr.
  destruct k; [contradiction Hne; reflexivity | reflexivity].
Qed.

Lemma pattern_hit_In (s : string) (p : regex) (e : string * value) :
  In e (pattern_hit s p) ->
  exists m k v,
    search p s = Some m
    /\ assoc_get "k" m = Some k
    /\ assoc_get "v" m = Some v
    /\ feature_entry k v = Some e.
Proof.
  unfold pattern_hit.
  destruct (search p s) as [m |]; [| intros []].
  destruct (assoc_get "k" m) as [k |] eqn:Ek; [| intros []].
  destruct (assoc_get "v" m) as [v |] eqn:Ev; [| intros []].
  destruct (feature_entry k v) as [e' |] eqn:Ef; [| intros []].
  intros [<- | []]. exists m, k, v. repeat split; assumption.
Qed.

(** What a recorded entry goes back to: a match of its form, the captured
    name as the entry's name, and a value of the form's kind. *)
Lemma hit_facts (p : regex) (s : string) (e : string * value) :
  In p SURFACE_FORMS ->
  In e (pattern_hit s p) ->
  exists m k v,
    search p s = Some m
    /\ assoc_get "k" m = Some k
    /\ assoc_get "v" m = Some v
    /\ Lang (RPlus is_name_char) k
    /\ fst e = k
    /\ ((In p _BOOL_PATTERNS /\ is_bool (snd e) = true)
        \/ (In p _PATTERNS /\ is_float (snd e) = true)).
Proof.
  intros Hp He. apply pattern_hit_In in He.
  destruct He as (m & k & v & Hs & Ek & Ev & Hf).
  destruct (form_groups p s m Hp Hs) as (k' & v' & Ek' & Ev' & Lk & Hv).
  rewrite Ek in Ek'. rewrite Ev in Ev'. inversion Ek'; inversion Ev'; subst k' v'.
  exists m, k, v. repeat (split; [assumption |]).
  rewrite (feature_entry_verbatim k v Lk) in Hf.
  destruct Hv as [[Hb Lv] | [Hn Lv]].
  - apply lang_BOOL_word in Lv.
    assert (Hw : String.eqb (Text.lower v) "true"
                 || String.eqb (Text.lower v) "false" = true)
      by (destruct Lv as [-> | ->]; reflexivity).
    rewrite Hw in Hf. inversion Hf; subst e.
    split; [reflexivity | left; split; [exact Hb | reflexivity]].
  - rewrite (lang_NUM_not_bool v Lv) in Hf.
    destruct (float_of_str v); inversion Hf; subst e.
    split; [reflexivity | right; split; [exact Hn | reflexivity]].
Qed.


(** X14.  The name recorded for a match is the text the name group
    captured, as it stands: a non-empty run of word characters.  It holds
    no whitespace, so the trimming and the replacement of spaces by
    underscores in [_try_add] never change a name. *)
Theorem feature_names_verbatim (p : regex) (s : string) (e : string * value) :
  In p SURFACE_FORMS ->
  In e (pattern_hit s p) ->
  exists m,
    search p s = Some m
    /\ assoc_get "k" m = Some (fst e)
    /\ fst e <> EmptyString
    /\ Text.all_chars is_name_char (fst e) = true
    /\ Text.strip (fst e) = fst e
    /\ Text.replace_char space underscore (fst e) = fst e.
Proof.
  intros Hp He.
  destruct (hit_facts p s e Hp He) as (m & k & v & Hs & Ek & _ & Lk & Hfst & _).
  exists m. rewrite Hfst. split; [exact Hs | split; [exact Ek |]].
  apply captured_name_verbatim, Lk.
Qed.


Lemma all_hits_In (lists : list value) (e : string * value) :
  In e (all_hits lists) ->
  exists s p, In p SURFACE_FORMS /\ In e (pattern_hit s p).
Proof.
  unfold all_hits. intros H. apply in_flat_map in H.
  destruct H as (L & _ & H). unfold list_hits in H.
  destruct (items_of L) as [items |]; [| contradiction H].
  apply in_flat_map in H. destruct H as (s & _ & H).
  unfold item_hits in H. apply in_flat_map in H.
  destruct H as (p & Hp & H). exists (Text.strip s), p. split; assumption.
Qed.

(** X16.  The mapping that the extraction returns has distinct names, each
    a non-empty run of word characters, and its values are booleans and
    floats only. *)
Theorem extracted_features_wellformed (lists : list value) (feats : dict) :
  _extract_features_from_text_lists lists = Ok feats ->
  NoDup (map fst feats)
  /\ forall k v,
      In (k, v) feats ->
      is_feature_value v = true
      /\ k <> EmptyString
      /\ Text.all_chars is_name_char k = true.
Proof.
  rewrite extract_hits. intros H. inversion H; subst feats. clear H. split.
  - apply assign_all_NoDup. constructor.
  - intros k v Hin. apply assign_all_In in Hin. destruct Hin as [Hin | []].
    apply all_hits_In in Hin. destruct Hin as (s & p & Hp & He).
    destruct (hit_facts p s (k, v) Hp He)
      as (_ & k' & _ & _ & _ & _ & Lk & Hfst & Hkind).
    cbn [fst snd] in Hfst, Hkind. subst k'.
    apply captured_name_verbatim in Lk. destruct Lk as (Hne & Hall & _).
    split; [| split; assumption].
    destruct Hkind as [[_ Hb] | [_ Hf]]; destruct v;
      try discriminate Hb; try discriminate Hf; reflexivity.
Qed.

Lemma list_hits_unscanned (L : value) : is_scanned L = false -> list_hits L = [].
Proof.
  unfold is_scanned, list_hits. destruct (items_of L); [discriminate | reflexivity].
Qed.

Lemma all_hits_scanned (lists : list value) :
  all_hits lists = all_hits (filter is_scanned lists).
Proof.
  unfold all_hits. induction lists as [| L lists IH]; [reflexivity |].
  simpl. destruct (is_scanned L) eqn:E; simpl.
  - rewrite IH. reflexivity.
  - rewrite (list_hits_unscanned L E). exact IH.
Qed.

(** X17.  Only non-empty strings and non-empty lists are scanned: any
    other argument (null, a number, a boolean, a mapping, an empty string
    or list) is passed over as if it were not there, and a string counts
    as the one-item list of itself. *)
Theorem extraction_scans_strings_and_lists :
  (forall L, is_scanned L = truthy L && (is_str L || is_list L))
  /\ (forall lists,
         _extract_features_from_text_lists lists
         = _extract_features_from_text_lists (filter is_scanned lists))
  /\ (forall s rest,
         _extract_features_from_text_lists (VStr s :: rest)
         = _extract_features_from_text_lists (VList [VStr s] :: rest)).
Proof.
  split; [| split].
  - intros L. unfold is_scanned, items_of.
    destruct (truthy L); [| reflexivity]. destruct L; reflexivity.
  - intros lists. rewrite !extract_hits, <- all_hits_scanned. reflexivity.
  - intros s rest. rewrite !extract_hits. unfold all_hits. cbn [flat_map].
    f_equal. f_equal. f_equal.
    destruct s as [| c s]; reflexivity.
Qed.

(** *** The adapter on its own output *)

Lemma assoc_get_In {A : Type} (k : string) (v : A) (d : list (string * A)) :
  assoc_get k d = Some v -> In (k, v) d.
Proof.
  induction d as [| [k' v'] d IH]; simpl; [discriminate |].
  destruct (String.eqb k k') eqn:E.
  - apply String.eqb_eq in E. subst k'. intros H. inversion H. left. reflexivity.
  - intros H. right. apply IH, H.
Qed.

Lemma conversion_values_are_records (v : value) (out : dict) (k : string)
      (r : value) :
  _scenarios_list_to_dict v = Ok out -> In (k, r) out -> is_dict r = true.
Proof.
  intros H Hin. apply conversion_entries in H. subst out.
  apply assign_all_In in Hin. destruct Hin as [Hin | []].
  apply scenario_entries_In in Hin. destruct Hin as (rec & _ & _ & -> & _).
  reflexivity.
Qed.

Lemma canonical_is_typed (d narr dg scenarios : dict) (feats : value) (v : value) :
  _scenarios_list_to_dict v = Ok scenarios ->
  typed_core (v1_document d narr dg scenarios feats) = true
  /\ typed_signals (v1_document d narr dg scenarios feats) = true
  /\ has_features (v1_document d narr dg scenarios feats) = false.
Proof.
  intros Hsc. split; [| split; reflexivity].
  unfold typed_core. cbv zeta.
  change (section_of "narrative" (v1_document d narr dg scenarios feats))
    with (VDict [("summary", summary_chain d);
                 ("drivers", VList (drivers_of narr))]).
  change (dict_get "scenarios" (v1_document d narr dg scenarios feats))
    with (VDict scenarios).
  change (dict_get "narrative" (v1_document d narr dg scenarios feats))
    with (VDict [("summary", summary_chain d);
                 ("drivers", VList (drivers_of narr))]).
  change (dict_get "demand" (v1_document d narr dg scenarios feats)) with VNone.
  change (section_of "scenarios" (v1_document d narr dg scenarios feats))
    with (py_or (VDict scenarios) empty_dict).
  cbn [entries_of].
  assert (Hs : scenario_list_ok
                 (dict_get_or "scenarios" empty_list
                    (entries_of (py_or (VDict scenarios) empty_dict))) = true).
  { unfold py_or. destruct scenarios as [| e scenarios'] eqn:E; [reflexivity |].
    cbn [truthy entries_of]. rewrite <- E in *. unfold dict_get_or.
    destruct (assoc_get "scenarios" scenarios) as [r |] eqn:Er; [| reflexivity].
    apply assoc_get_In in Er.
    pose proof (conversion_values_are_records v scenarios _ r Hsc Er) as Hr.
    destruct r; try discriminate Hr. reflexivity. }
  rewrite Hs. unfold section_ok. cbn [is_dict]. rewrite !orb_true_r. reflexivity.
Qed.

(** X18.  The adapter is not made for its own output: applied to a
    document it returned, it returns again and keeps [business_id] and
    [window_weeks], but the signals come out as empty mappings and the
    features as the empty mapping.  Only the marker test of [to_v1]
    keeps a canonical document intact. *)
Theorem readapting_loses_signals (d out : dict) :
  adapt_internal_bundle_to_v1 d = Ok out ->
  exists out',
    adapt_internal_bundle_to_v1 out = Ok out'
    /\ dict_get "business_id" out' = dict_get "business_id" out
    /\ dict_get "window_weeks" out' = dict_get "window_weeks" out
    /\ dict_get "signals" out'
       = VDict [("demand", empty_dict); ("capacity", empty_dict);
                ("risk", empty_dict)]
    /\ at_path ["explainability"; "features"] (VDict out') = Some empty_dict
    /\ to_v1 out = Ok out.
Proof.
  intros H. pose proof (adapt_Ok_view d out H) as Hv.
  destruct Hv as (scen & narr & dg & scenarios & feats & _ & _ & _ & _ & Hsc & ->).
  destruct (canonical_is_typed d narr dg scenarios feats _ Hsc) as (Hc & Hs & Hf).
  destruct (returns_Ok _ (adapt_returns _ Hc (or_intror Hs))) as (out' & H').
  exists out'. split; [exact H' |].
  pose proof (adapt_Ok_view _ out' H') as Hv'.
  destruct Hv' as (scen' & narr' & dg' & scenarios' & feats'
                   & _ & _ & _ & Hf' & _ & ->).
  destruct Hf' as [[Hf' _] | (_ & _ & _ & _ & ->)]; [congruence |].
  split; [| split; [reflexivity | split; [reflexivity | split; [reflexivity |]]]].
  - change (dict_get "business_id" (v1_document (v1_document _ _ _ _ _) _ _ _ _))
      with (business_id_chain (v1_document d narr dg scenarios feats)).
    unfold business_id_chain. apply first_truthy_here.
    apply first_truthy_truthy. reflexivity.
  - reflexivity.
Qed.

(** *** The text helpers of the page *)

(** X19.  [short] (and [clamp], which has the same body) trims its text
    and returns it whole when it has at most [n] characters.  A longer
    text is cut to a prefix of its first [n] characters followed by the
    ellipsis: the part before the last space among those characters, or
    all of them when they hold no space.  A null or empty argument gives
    the empty text, and a truthy argument that is not a string raises
    [AttributeError]. *)
Theorem short_cuts_at_a_space (v : value) (n : Z) :
  (0 <= n)%Z ->
  clamp v n = short v n
  /\ (truthy v = false -> short v n = Ok EmptyString)
  /\ (truthy v = true -> is_str v = false -> short v n = Raise AttributeError)
  /\ (forall s,
         v = VStr s ->
         let t := Text.strip s in
         let head := substring 0 (Z.to_nat n) t in
         ((Z.of_nat (String.length t) <= n)%Z /\ short v n = Ok t)
         \/ ((n < Z.of_nat (String.length t))%Z
             /\ exists p,
                 short v n = Ok (p ++ ELLIPSIS)
                 /\ String.length p <= Z.to_nat n
                 /\ (exists rest, t = (p ++ rest)%string)
                 /\ ((p = head
                      /\ Text.all_chars
                           (fun c => negb (Text.is_char " "%char c)) head
                         = true)
                     \/ exists w,
                         head = (p ++ String " " w)%string
                         /\ Text.all_chars
                              (fun c => negb (Text.is_char " "%char c)) w
                            = true))).
Proof.
  intros Hn. split; [reflexivity | split; [| split]].
  - intros Hv. unfold short, py_or. rewrite Hv. cbn.
    destruct (0 <=? n)%Z eqn:E; [reflexivity | lia].
  - intros Hv Hs. unfold short, py_or. rewrite Hv.
    destruct v; try discriminate Hs; reflexivity.
  - intros s -> t head. subst t head. unfold short, py_or.
    destruct s as [| c s].
    + left. cbn. split; [exact Hn |].
      destruct (0 <=? n)%Z eqn:E; [reflexivity | lia].
    + cbn [truthy Text.is_empty negb attr_strip bind].
      set (t := Text.strip (String c s)).
      destruct (Z.of_nat (String.length t) <=? n)%Z eqn:E.
      * left. split; [lia | reflexivity].
      * right. split; [lia |].
        unfold Text.slice_to.
        destruct (0 <=? n)%Z eqn:E0; [| lia].
        destruct (TextFacts.substring_split (Z.to_nat n) t) as (rest & Et & Lt).
        set (head := substring 0 (Z.to_nat n) t) in *.
        unfold Text.before_last_space.
        destruct (Text.rsplit_space head) as [p |] eqn:Er.
        -- destruct (TextFacts.rsplit_space_some head p Er) as (w & Eh & Hw).
           exists p. split; [reflexivity |].
           assert (Lp : String.length p <= String.length head)
             by (rewrite Eh, TextFacts.append_length; lia).
           split; [lia |]. split.
           ++ exists (String " " w ++ rest)%string.
              rewrite Et at 1. rewrite Eh, TextFacts.append_assoc. reflexivity.
           ++ right. exists w. split; assumption.
        -- exists head. split; [reflexivity |]. split; [exact Lt |]. split.
           ++ exists rest. exact Et.
           ++ left. split; [reflexivity |].
              apply TextFacts.rsplit_space_none, Er.
Qed.

(** *** What the page reads *)

(** X20.  On a document returned by the adapter the reads of the page
    never raise, and they deliver the adapter's fields as they are: none
    of the [or] defaults of the page replaces a value. *)
Theorem page_reads_adapter_output (d out : dict) :
  adapt_internal_bundle_to_v1 d = Ok out ->
  exists p,
    read_page out = Ok p
    /\ page_posture p = dict_get "posture" out
    /\ page_confidence p = dict_get "confidence" out
    /\ page_headline p = dict_get "headline" out
    /\ page_business_id p = dict_get "business_id" out
    /\ at_path ["narrative"; "summary"] (VDict out) = Some (page_summary p)
    /\ at_path ["narrative"; "drivers"] (VDict out) = Some (page_drivers p)
    /\ dict_get "scenarios" out = page_scenarios p
    /\ dict_get "signals" out = page_signals p
    /\ at_path ["explainability"; "features"] (VDict out)
       = Some (page_features p).
Proof.
  intros H. apply adapt_Ok_view in H.
  destruct H as (scen & narr & dg & scenarios & feats & _ & _ & _ & Hf & _ & ->).
  assert (Hfeats : py_or feats empty_dict = feats).
  { unfold py_or. destruct (truthy feats) eqn:T; [reflexivity |].
    destruct Hf as [[F ->] | (_ & _ & _ & _ & ->)].
    - unfold has_features in F. rewrite T, andb_false_r in F. discriminate F.
    - destruct (assign_all _ _); [reflexivity | discriminate T]. }
  eexists. split; [reflexivity |]. cbn.
  repeat split.
  - destruct (drivers_of narr); reflexivity.
  - destruct scenarios; reflexivity.
  - rewrite Hfeats. reflexivity.
Qed.

(** X21.  The reads of the page raise exactly when the document's
    [narrative] or [explainability] is a truthy value that is not a
    mapping, and then [AttributeError].  A document that carries the
    canonical marker reaches them as it is: [to_v1] returns it unchecked. *)
Theorem page_reads_raise (out : dict) :
  returns (read_page out)
  = section_ok (dict_get "narrative" out)
    && section_ok (dict_get "explainability" out)
  /\ (forall e, read_page out = Raise e -> e = AttributeError)
  /\ (is_v1 out = true ->
      section_ok (dict_get "narrative" out)
      && section_ok (dict_get "explainability" out) = false ->
      to_v1 out = Ok out /\ read_page out = Raise AttributeError).
Proof.
  assert (Hret : returns (read_page out)
                 = section_ok (dict_get "narrative" out)
                   && section_ok (dict_get "explainability" out)).
  { unfold read_page. cbv zeta.
    fold (section_of "narrative" out) (section_of "explainability" out).
    destruct (section_of_cases "narrative" out) as [[T E] | [T E]];
      destruct (section_of_cases "explainability" out) as [[T' E'] | [T' E']];
      rewrite E, E'; unfold section_ok; rewrite T, T'; cbn [negb orb];
      try (destruct (dict_get "narrative" out); try reflexivity;
           destruct (dict_get "explainability" out); reflexivity);
      try (destruct (dict_get "narrative" out); reflexivity);
      try (destruct (dict_get "explainability" out); reflexivity);
      reflexivity. }
  assert (Hexn : forall e, read_page out = Raise e -> e = AttributeError).
  { unfold read_page. cbv zeta. intros e.
    destruct (py_or (dict_get_or "narrative" empty_dict out) empty_dict);
      cbn; try (intros H; inversion H; reflexivity).
    destruct (py_or (dict_get_or "explainability" empty_dict out) empty_dict);
      cbn; try (intros H; inversion H; reflexivity); discriminate. }
  split; [exact Hret | split; [exact Hexn |]].
  intros Hv Hbad. split; [unfold to_v1; rewrite Hv; reflexivity |].
  rewrite <- Hret in Hbad.
  destruct (read_page out) as [p | e] eqn:E; [discriminate Hbad |].
  rewrite (Hexn e eq_refl). reflexivity.
Qed.

Lemma firstn_In_all {A : Type} (n : nat) (l : list A) (x : A) :
  In x (firstn n l) -> In x l.
Proof.
  revert l. induction n as [| n IH]; intros l; simpl; [intros [] |].
  destruct l as [| y l]; simpl; [intros [] |].
  intros [H | H]; [left; exact H | right; apply IH, H].
Qed.

Lemma drivers_are_strings (narr : dict) (x : value) :
  In x (drivers_of narr) -> is_str x = true.
Proof.
  intros Hx. unfold drivers_of in Hx.
  destruct (driver_line_short narr "upside_conditions" "Upside conditions: ")
    as [_ S1].
  destruct (driver_line_short narr "downside_risks" "Downside risks: ")
    as [_ S2].
  apply in_app_or in Hx. destruct Hx as [Hx | Hx];
    [eapply forallb_forall in S1 | eapply forallb_forall in S2]; eassumption.
Qed.

(** X22.  On a document returned by the adapter, shortening a driver for
    its bullet never raises, since every driver is a string; shortening
    the summary raises exactly when the summary, taken over from the
    bundle, is not a string. *)
Theorem bullets_never_raise (d out : dict) (n : Z) :
  adapt_internal_bundle_to_v1 d = Ok out ->
  (forall drivers x,
      at_path ["narrative"; "drivers"] (VDict out) = Some (VList drivers) ->
      In x (firstn 2 drivers) ->
      returns (short x n) = true)
  /\ (forall summary,
         at_path ["narrative"; "summary"] (VDict out) = Some summary ->
         returns (short summary n) = is_str summary).
Proof.
  intros H. apply adapt_Ok_view in H.
  destruct H as (scen & narr & dg & scenarios & feats & _ & _ & _ & _ & _ & ->).
  split.
  - intros drivers x Hd Hx. cbn in Hd. injection Hd as <-.
    apply firstn_In_all in Hx. apply drivers_are_strings in Hx.
    destruct x; try discriminate Hx. unfold short, py_or.
    destruct (truthy (VStr s)); cbn [attr_strip bind empty_str];
      destruct (_ <=? _)%Z; reflexivity.
  - intros summary Hs. cbn in Hs. injection Hs as <-.
    unfold summary_chain.
    destruct (first_truthy_or_default
                [dict_get "base_case_summary" (entries_of (section_of "narrative" d));
                 dict_get "future_earnings_profile"
                          (entries_of (section_of "narrative" d))]
                empty_str) as [Ht | ->].
    + unfold short, py_or. rewrite Ht.
      destruct (first_truthy _ _); try reflexivity.
      cbn [attr_strip bind is_str]. destruct (_ <=? _)%Z; reflexivity.
    + unfold short. cbn. destruct (0 <=? n)%Z; reflexivity.
Qed.

(** X23.  [to_v1] hands a document back unchanged only if it carries the
    canonical marker: whatever the adapter returns differs from its
    input, which has no marker. *)
Theorem to_v1_unchanged_only_canonical (d : dict) :
  to_v1 d = Ok d <-> is_v1 d = true.
Proof.
  split.
  - unfold to_v1. destruct (is_v1 d) eqn:E; [reflexivity |].
    intros H. apply adapt_is_v1 in H. destruct H as [_ H]. congruence.
  - intros H. unfold to_v1. rewrite H. reflexivity.
Qed.

End AdapterFacts.

(* ================================================================== *)
(** ** The adapter at work *)

#[local] Existing Instance decimal_float.

Example extract_numeric :
  _extract_features_from_text_lists [VList [VStr "demand_stability: 0.85"]]
  = Ok [("demand_stability", VFloat (Decimal.make 85 2))].
Proof. reflexivity. Qed.

Example extract_docstring_phrases :
  _extract_features_from_text_lists
    [VList [VStr "demand_stability: 0.85"];
     VList [VStr "Capacity utilization is 0.72."];
     VList [VStr "The `std_over_mean_orders` is 0.15...";
            VStr "Capacity constraint flag is false."]]
  = Ok [("demand_stability", VFloat (Decimal.make 85 2));
        ("utilization", VFloat (Decimal.make 72 2));
        ("std_over_mean_orders", VFloat (Decimal.make 15 2));
        ("flag", VBool false)].
Proof. reflexivity. Qed.

(** All forms are applied to a text, each with its first match, and a
    later form overwrites an earlier one on the same name. *)
Example extract_later_form_overwrites :
  _extract_features_from_text_lists [VStr "rate is 5 and `rate` is 7"]
  = Ok [("rate", VFloat (Decimal.make 5 0))].
Proof. reflexivity. Qed.

Example extract_backticked_boolean :
  _extract_features_from_text_lists
    [VList [VStr "The `capacity_constraint_flag` is false and std_over_mean_orders: 0.15"]]
  = Ok [("std_over_mean_orders", VFloat (Decimal.make 15 2))].
Proof. reflexivity. Qed.

(** *** C1: a bundle on which the adapter raises *)

(** C1, counterexample.  On [{"demand": "steady orders"}], a well-formed
    mapping whose [demand] is text, the adapter raises [AttributeError]:
    the fallback chain of [business_id] calls [.get] on the text. *)
Lemma adapter_raises_on_text_section :
  adapt_internal_bundle_to_v1 bundle_text_demand = Raise AttributeError.
Proof. reflexivity. Qed.

Lemma adapter_total_on_typed_bundles_witness :
  (exists out, adapt_internal_bundle_to_v1 bundle_sparse = Ok out)
  /\ (exists out, adapt_internal_bundle_to_v1 bundle_stray_entries = Ok out)
  /\ at_path ["signals"; "demand"]
             (VDict (the_output (adapt_internal_bundle_to_v1 bundle_sparse)))
     = Some empty_dict
  /\ at_path ["scenarios"]
             (VDict (the_output (adapt_internal_bundle_to_v1 bundle_sparse)))
     = Some empty_dict
  /\ at_path ["narrative"; "drivers"]
             (VDict (the_output (adapt_internal_bundle_to_v1 bundle_sparse)))
     = Some empty_list.
Proof.
  pose proof (@adapter_total_on_typed_bundles decimal_float)
    as (Htot & _ & Hdef & _).
  split; [apply Htot; reflexivity |].
  split; [apply Htot; reflexivity |].
  destruct (Hdef bundle_sparse
                 (the_output (adapt_internal_bundle_to_v1 bundle_sparse))
                 eq_refl) as (Hsig & Hscen & Hdrv).
  split; [apply Hsig; [left; reflexivity | reflexivity] |].
  split; [apply Hscen; reflexivity | apply Hdrv; reflexivity].
Defined.

(** *** C2 *)

Lemma output_fully_shaped_witness :
  fully_shaped (the_output (adapt_internal_bundle_to_v1 [])) = true
  /\ exists out,
      adapt_internal_bundle_to_v1 bundle_sparse = Ok out
      /\ fully_shaped out = true.
Proof.
  pose proof (@output_fully_shaped decimal_float) as (Hshape & Hsparse & _).
  split.
  - apply (Hshape [] (the_output (adapt_internal_bundle_to_v1 []))).
    reflexivity.
  - apply Hsparse; reflexivity.
Defined.

(** *** C3 *)

Lemma to_v1_keeps_canonical_witness : to_v1 doc_canonical = Ok doc_canonical.
Proof.
  apply (@to_v1_keeps_canonical decimal_float doc_canonical). reflexivity.
Defined.

(** *** C4 *)


(** *** C5 *)


(** *** C6 *)

Lemma scenarios_last_wins_witness :
  assoc_get "base" (the_output (_scenarios_list_to_dict scenarios_base_twice))
  = Some (scenario_record
            [("scenario", VStr "BASE"); ("earnings_direction", VStr "Down")])
  /\ (exists out, _scenarios_list_to_dict scenarios_base_twice = Ok out)
  /\ scenario_step [] (VDict [("scenario", VStr " BASE ")])
     = Ok [("base", scenario_record [("scenario", VStr " BASE ")])].
Proof.
  pose proof (@scenarios_last_wins decimal_float)
    as (Hlast & Hret & _ & Hkey & _).
  split; [| split].
  - destruct (Hlast [VDict [("scenario", VStr "Base");
                            ("earnings_direction", VStr "Up")];
                     VDict [("scenario", VStr "BASE");
                            ("earnings_direction", VStr "Down")]]
                    (the_output (_scenarios_list_to_dict scenarios_base_twice))
                    eq_refl) as [_ Hname].
    exact (Hname "base").
  - apply Hret. reflexivity.
  - apply (Hkey [] [("scenario", VStr " BASE ")] " BASE "). reflexivity.
Defined.

(** *** C7 *)

Lemma business_id_fallback_chain_witness :
  dict_get "business_id"
           (the_output (adapt_internal_bundle_to_v1 bundle_narrative_id))
  = VStr "biz-7"
  /\ dict_get "business_id"
              (the_output (adapt_internal_bundle_to_v1 bundle_two_ids))
     = VStr "biz-1".
Proof.
  split.
  - apply (proj1 (proj2 (@business_id_fallback_chain
                           decimal_float bundle_narrative_id
                           (the_output
                              (adapt_internal_bundle_to_v1 bundle_narrative_id))
                           eq_refl))); reflexivity.
  - apply (proj2 (proj2 (@business_id_fallback_chain
                           decimal_float bundle_two_ids
                           (the_output
                              (adapt_internal_bundle_to_v1 bundle_two_ids))
                           eq_refl))); reflexivity.
Defined.

(** *** C8: a capacity reality that is present and leaves no clause *)

(** C8, counterexample.  With posture ["Strong"] and
    [narrative.diagnostics.capacity_reality] present with the value
    [false], the headline is ["Strong."]: the clause
    [" Capacity reality: False."] that goes with a present field is not
    appended. *)
Lemma headline_omits_falsy_capacity_reality :
  assoc_get "capacity_reality"
            (entries_of (diagnostics_of bundle_false_capacity_reality))
  = Some (VBool false)
  /\ output_field "posture"
                  (adapt_internal_bundle_to_v1 bundle_false_capacity_reality)
     = Some (VStr "Strong")
  /\ output_field "headline"
                  (adapt_internal_bundle_to_v1 bundle_false_capacity_reality)
     = Some (VStr "Strong.")
  /\ headline_if_present (VStr "Strong") (Some (VBool false))
     = "Strong. Capacity reality: False."
  /\ output_field "headline"
                  (adapt_internal_bundle_to_v1 bundle_false_capacity_reality)
     <> Some (VStr (headline_if_present (VStr "Strong") (Some (VBool false)))).
Proof.
  repeat split. discriminate.
Qed.

Lemma headline_composition_witness :
  dict_get "headline"
           (the_output (adapt_internal_bundle_to_v1 bundle_constrained))
  = VStr "Strong. Capacity reality: constrained."
  /\ dict_get "headline"
              (the_output (adapt_internal_bundle_to_v1 bundle_strong))
     = VStr "Strong.".
Proof.
  split.
  - apply (proj1 (proj2 (@headline_composition
                           decimal_float bundle_constrained
                           (the_output
                              (adapt_internal_bundle_to_v1 bundle_constrained))
                           eq_refl))); reflexivity.
  - apply (proj2 (proj2 (@headline_composition
                           decimal_float bundle_strong
                           (the_output
                              (adapt_internal_bundle_to_v1 bundle_strong))
                           eq_refl))); reflexivity.
Defined.

(** *** C9 *)

Lemma to_v1_idempotent_witness :
  is_v1 (the_output (adapt_internal_bundle_to_v1 bundle_narrative_id)) = true
  /\ to_v1 (the_output (to_v1 bundle_narrative_id))
     = Ok (the_output (to_v1 bundle_narrative_id)).
Proof.
  pose proof (@to_v1_idempotent decimal_float) as (Hv1 & _ & Hfix).
  split.
  - apply (Hv1 bundle_narrative_id). reflexivity.
  - apply (Hfix bundle_narrative_id). reflexivity.
Defined.

(** *** C10 *)

Lemma window_weeks_plain_lookup_witness :
  dict_get "window_weeks"
           (the_output (adapt_internal_bundle_to_v1 bundle_null_weeks))
  = VNone
  /\ dict_get "window_weeks"
              (the_output (adapt_internal_bundle_to_v1 bundle_strong))
     = VInt 8.
Proof.
  split.
  - apply (proj1 (@window_weeks_plain_lookup
                    decimal_float bundle_null_weeks
                    (the_output (adapt_internal_bundle_to_v1 bundle_null_weeks))
                    eq_refl)). reflexivity.
  - apply (proj2 (@window_weeks_plain_lookup
                    decimal_float bundle_strong
                    (the_output (adapt_internal_bundle_to_v1 bundle_strong))
                    eq_refl)). reflexivity.
Defined.

(* ================================================================== *)
(** ** More of the adapter at work *)

Lemma posture_fallback_chain_witness :
  dict_get "posture" (the_output (adapt_internal_bundle_to_v1 bundle_full))
  = VStr "Strong".
Proof.
  exact (@posture_fallback_chain decimal_float bundle_full
           (the_output (adapt_internal_bundle_to_v1 bundle_full)) eq_refl).
Defined.

Lemma confidence_fallback_chain_witness :
  dict_get "confidence" (the_output (adapt_internal_bundle_to_v1 bundle_full))
  = VStr "high".
Proof.
  exact (@confidence_fallback_chain decimal_float bundle_full
           (the_output (adapt_internal_bundle_to_v1 bundle_full)) eq_refl).
Defined.

Lemma summary_fallback_chain_witness :
  at_path ["narrative"; "summary"]
          (VDict (the_output (adapt_internal_bundle_to_v1 bundle_full)))
  = Some (VStr "Stable.")
  /\ (truthy (VStr "Stable.") = true \/ VStr "Stable." = empty_str).
Proof.
  destruct (@summary_fallback_chain decimal_float bundle_full
              (the_output (adapt_internal_bundle_to_v1 bundle_full)) eq_refl)
    as [Hs Hblank].
  split; [exact Hs | apply Hblank; reflexivity].
Defined.

Lemma identity_fields_never_blank_witness :
  truthy (dict_get "business_id"
                   (the_output (adapt_internal_bundle_to_v1 []))) = true
  /\ truthy (dict_get "posture"
                      (the_output (adapt_internal_bundle_to_v1 []))) = true
  /\ truthy (dict_get "confidence"
                      (the_output (adapt_internal_bundle_to_v1 []))) = true
  /\ is_str (dict_get "headline"
                      (the_output (adapt_internal_bundle_to_v1 []))) = true
  /\ truthy (dict_get "headline"
                      (the_output (adapt_internal_bundle_to_v1 []))) = true.
Proof.
  exact (@identity_fields_never_blank decimal_float []
           (the_output (adapt_internal_bundle_to_v1 [])) eq_refl).
Defined.

Lemma drivers_at_most_two_witness :
  at_path ["narrative"; "drivers"]
          (VDict (the_output (adapt_internal_bundle_to_v1 bundle_full)))
  = Some (VList [VStr "Upside conditions: A; C"; VStr "Downside risks: B"])
  /\ forallb is_str [VStr "A"; VStr "C"] = true.
Proof.
  destruct (@drivers_at_most_two decimal_float bundle_full
              (the_output (adapt_internal_bundle_to_v1 bundle_full)) eq_refl)
    as (Hd & _ & _ & Hup).
  split; [exact Hd |].
  apply (Hup (VStr "A") [VStr "C"]). reflexivity.
Defined.

Lemma rules_fired_four_lines_witness :
  at_path ["diagnostics"; "rules_fired"]
          (VDict (the_output (adapt_internal_bundle_to_v1 bundle_full)))
  = Some (VList [VStr "demand_certainty: None";
                 VStr "capacity_reality: None";
                 VStr "earnings_posture: Strong";
                 VStr "confidence: None"])
  /\ In (VStr "confidence: None")
        (rules_fired_of (entries_of (diagnostics_of bundle_full))).
Proof.
  destruct (@rules_fired_four_lines decimal_float bundle_full
              (the_output (adapt_internal_bundle_to_v1 bundle_full)) eq_refl)
    as (Hr & _ & Habs).
  split; [exact Hr |].
  apply (Habs ("confidence", "confidence_level_rule_result"));
    [simpl; tauto | reflexivity].
Defined.

Lemma signals_pass_through_witness :
  at_path ["signals"; "demand"]
          (VDict (the_output (adapt_internal_bundle_to_v1 bundle_full)))
  = Some (dict_get "demand" bundle_full)
  /\ at_path ["signals"; "risk"]
             (VDict (the_output (adapt_internal_bundle_to_v1 bundle_full)))
     = Some empty_dict
  /\ exists m,
      at_path ["signals"; "capacity"]
              (VDict (the_output (adapt_internal_bundle_to_v1 bundle_full)))
      = Some (VDict m).
Proof.
  split; [| split].
  - apply (proj1 (@signals_pass_through
                    decimal_float bundle_full
                    (the_output (adapt_internal_bundle_to_v1 bundle_full))
                    "demand" eq_refl (or_introl eq_refl))).
    reflexivity.
  - apply (proj1 (proj2 (@signals_pass_through
                           decimal_float bundle_full
                           (the_output (adapt_internal_bundle_to_v1 bundle_full))
                           "risk" eq_refl
                           (or_intror (or_intror (or_introl eq_refl)))))).
    reflexivity.
  - apply (proj2 (proj2 (@signals_pass_through
                           decimal_float bundle_full
                           (the_output (adapt_internal_bundle_to_v1 bundle_full))
                           "capacity" eq_refl
                           (or_intror (or_introl eq_refl))))).
    reflexivity.
Defined.

Lemma scenarios_field_is_conversion_witness :
  at_path ["scenarios"; "base"]
          (VDict (the_output (adapt_internal_bundle_to_v1 bundle_full)))
  = Some (scenario_record
            [("scenario", VStr " Base "); ("earnings_direction", VNone)]).
Proof.
  exact (proj2 (@scenarios_field_is_conversion
                  decimal_float bundle_full
                  (the_output (adapt_internal_bundle_to_v1 bundle_full))
                  eq_refl) "base").
Defined.

Lemma adapter_reads_eight_keys_witness :
  adapt_internal_bundle_to_v1 bundle_strong_noted
  = adapt_internal_bundle_to_v1 bundle_strong.
Proof.
  apply (@adapter_reads_eight_keys decimal_float).
  intros k Hk. simpl in Hk.
  repeat (destruct Hk as [<- | Hk]; [reflexivity |]). contradiction Hk.
Defined.

Lemma scenario_keys_normalised_witness :
  NoDup (map fst (the_output (_scenarios_list_to_dict scenarios_base_twice)))
  /\ "base" <> EmptyString /\ Text.lower "base" = "base"
  /\ Text.strip "base" = "base".
Proof.
  destruct (@scenario_keys_normalised
              decimal_float scenarios_base_twice
              (the_output (_scenarios_list_to_dict scenarios_base_twice))
              eq_refl) as [Hnd Hk].
  split; [exact Hnd |]. apply Hk. left. reflexivity.
Defined.

Lemma scenario_records_shaped_witness :
  exists fields,
    scenario_record
      [("scenario", VStr "BASE"); ("earnings_direction", VStr "Down")]
    = VDict fields
    /\ map fst fields = SCENARIO_KEYS
    /\ truthy (dict_get "confidence" fields) = true.
Proof.
  destruct (@scenario_records_shaped
              decimal_float scenarios_base_twice
              (the_output (_scenarios_list_to_dict scenarios_base_twice))
              "base"
              (scenario_record
                 [("scenario", VStr "BASE"); ("earnings_direction", VStr "Down")])
              eq_refl (or_introl eq_refl))
    as (fields & E & Hk & Hc & _).
  exists fields. split; [exact E | split; [exact Hk | exact Hc]].
Defined.

Lemma scenario_map_size_witness :
  length (the_output (_scenarios_list_to_dict scenarios_base_twice)) <= 2.
Proof.
  exact (@scenario_map_size
           decimal_float
           [VDict [("scenario", VStr "Base"); ("earnings_direction", VStr "Up")];
            VDict [("scenario", VStr "BASE");
                   ("earnings_direction", VStr "Down")]]
           (the_output (_scenarios_list_to_dict scenarios_base_twice))
           eq_refl).
Defined.

Lemma scenario_conversion_raises_witness :
  _scenarios_list_to_dict scenarios_numeric_name = Raise AttributeError
  /\ returns (_scenarios_list_to_dict scenarios_numeric_name) = false
  /\ _scenarios_list_to_dict (VStr "none yet") = Ok [].
Proof.
  destruct (@scenario_conversion_raises decimal_float scenarios_numeric_name)
    as (Hexn & Hiff & _).
  split; [| split].
  - destruct (_scenarios_list_to_dict scenarios_numeric_name) as [out | e] eqn:E;
      [discriminate E | rewrite (Hexn e eq_refl); reflexivity].
  - apply Hiff. exists [("scenario", VInt 5)].
    split; [left; reflexivity | split; reflexivity].
  - apply (proj2 (proj2 (@scenario_conversion_raises
                           decimal_float (VStr "none yet")))).
    reflexivity.
Defined.

Lemma feature_names_verbatim_witness :
  exists m,
    Regex.search NUM_COLON "orders: 2" = Some m
    /\ assoc_get "k" m = Some "orders"
    /\ "orders" <> EmptyString
    /\ Text.all_chars is_name_char "orders" = true
    /\ Text.strip "orders" = "orders"
    /\ Text.replace_char space underscore "orders" = "orders".
Proof.
  apply (@feature_names_verbatim
           decimal_float NUM_COLON "orders: 2"
           ("orders", @VFloat decimal_float (Decimal.make 2 0))).
  - simpl. tauto.
  - left. reflexivity.
Defined.


Lemma extracted_features_wellformed_witness :
  NoDup (map fst (the_output
                    (_extract_features_from_text_lists
                       (key_factor_lists bundle_full))))
  /\ is_feature_value (VBool false) = true
  /\ "volatility_flag" <> EmptyString
  /\ Text.all_chars is_name_char "volatility_flag" = true.
Proof.
  destruct (@extracted_features_wellformed
              decimal_float (key_factor_lists bundle_full)
              (the_output (_extract_features_from_text_lists
                             (key_factor_lists bundle_full)))
              eq_refl) as [Hnd Hall].
  split; [exact Hnd |].
  apply (Hall "volatility_flag" (VBool false)). right. left. reflexivity.
Defined.

Lemma readapting_loses_signals_witness :
  exists out',
    adapt_internal_bundle_to_v1
      (the_output (adapt_internal_bundle_to_v1 bundle_full)) = Ok out'
    /\ dict_get "business_id" out' = VStr "biz-1"
    /\ dict_get "signals" out'
       = VDict [("demand", empty_dict); ("capacity", empty_dict);
                ("risk", empty_dict)].
Proof.
  destruct (@readapting_loses_signals
              decimal_float bundle_full
              (the_output (adapt_internal_bundle_to_v1 bundle_full)) eq_refl)
    as (out' & H & Hb & _ & Hs & _).
  exists out'. split; [exact H | split; [exact Hb | exact Hs]].
Defined.

Lemma short_cuts_at_a_space_witness :
  clamp (VStr "alpha beta gamma") 8 = short (VStr "alpha beta gamma") 8
  /\ short VNone 8 = Ok EmptyString
  /\ short (VInt 5) 8 = Raise AttributeError
  /\ exists p,
      short (VStr "alpha beta gamma") 8 = Ok (p ++ ELLIPSIS)
      /\ String.length p <= 8.
Proof.
  assert (H8 : (0 <= 8)%Z) by lia.
  split; [| split; [| split]].
  - apply (proj1 (@short_cuts_at_a_space decimal_float _ 8 H8)).
  - apply (proj1 (proj2 (@short_cuts_at_a_space decimal_float VNone 8 H8))).
    reflexivity.
  - apply (proj1 (proj2 (proj2 (@short_cuts_at_a_space
                                  decimal_float (VInt 5) 8 H8))));
      reflexivity.
  - destruct (proj2 (proj2 (proj2 (@short_cuts_at_a_space
                                     decimal_float (VStr "alpha beta gamma")
                                     8 H8)))
                    "alpha beta gamma" eq_refl)
      as [[Hfit _] | (_ & p & Hp & Hlen & _)].
    + vm_compute in Hfit. contradiction Hfit. reflexivity.
    + exists p. split; [exact Hp | exact Hlen].
Defined.

Lemma page_reads_adapter_output_witness :
  exists p,
    read_page (the_output (adapt_internal_bundle_to_v1 bundle_full)) = Ok p
    /\ page_posture p = VStr "Strong"
    /\ page_business_id p = VStr "biz-1".
Proof.
  destruct (@page_reads_adapter_output
              decimal_float bundle_full
              (the_output (adapt_internal_bundle_to_v1 bundle_full)) eq_refl)
    as (p & H & Hp & _ & _ & Hb & _).
  exists p. split; [exact H | split; [exact Hp | exact Hb]].
Defined.

Lemma page_reads_raise_witness :
  to_v1 doc_text_narrative = Ok doc_text_narrative
  /\ read_page doc_text_narrative = Raise AttributeError.
Proof.
  apply (proj2 (proj2 (@page_reads_raise decimal_float doc_text_narrative)));
    reflexivity.
Defined.

Lemma bullets_never_raise_witness :
  returns (short (VStr "Upside conditions: A; C") 160) = true
  /\ returns (short (VStr "Stable.") 520) = true.
Proof.
  split.
  - apply (proj1 (@bullets_never_raise
                    decimal_float bundle_full
                    (the_output (adapt_internal_bundle_to_v1 bundle_full))
                    160 eq_refl)
                 [VStr "Upside conditions: A; C"; VStr "Downside risks: B"]);
      [reflexivity | left; reflexivity].
  - apply (proj2 (@bullets_never_raise
                    decimal_float bundle_full
                    (the_output (adapt_internal_bundle_to_v1 bundle_full))
                    520 eq_refl)
                 (VStr "Stable.")).
    reflexivity.
Defined.

Lemma to_v1_unchanged_only_canonical_witness : is_v1 doc_canonical = true.
Proof.
  apply (proj1 (@to_v1_unchanged_only_canonical decimal_float doc_canonical)).
  reflexivity.
Defined.
